(** * Layouter: table-of-contents extractor and chapter store

    A shallow embedding of the two source files of the ebook layouter:

    - the PDF table-of-contents extractor ([processTableOfContents]), and
    - the chapter/settings store ([useEbookStore.ts]): [addChapter],
      [updateChapter], [removeChapter], [reorderChapters], [updateSettings],
      [calculatePageNumbers], [addSubChapter], [removeSubChapter].

    Conventions.
    - A JS string is a Rocq [string]: a sequence of code units, here the
      code units below 256.  The patterns of the extractor only mention
      ASCII letters, digits, [:], [.] and the classes [\s], [\d] and [.],
      whose meaning on these code units is written out in [Js].
    - The doubles of the pagination estimate are Rocq's primitive binary64
      floats, so every [+], [-], [*], [/] below rounds as it does in JS.
    - Counters that count list elements or pages ([chapterNumber],
      [pageCounter], [romanIndex], [tableOfContents.length]) are [nat]:
      a JS array has fewer than 2^32 elements, far below 2^53, up to where
      double arithmetic on integers is exact.  Where such a counter is
      stored as a [pageNumber] of the store it becomes the double of that
      integer ([Js.ofNat]). *)

From Stdlib Require Import ZArith List Bool Lia.
From Stdlib Require Import Ascii String DecimalString.
From Stdlib Require Import Floats Uint63.
From Stdlib Require Import Permutation Sorted.
Import ListNotations.

Set Warnings "-inexact-float".

(* ================================================================== *)
(** * JS built-ins used by the two files *)
(* ================================================================== *)

Module Js.

Local Open Scope string_scope.

(** ** Characters and character classes *)

Definition code (c : ascii) : N := N_of_ascii c.

(** [\d] *)
Definition isDigit (c : ascii) : bool :=
  (48 <=? code c)%N && (code c <=? 57)%N.

(** LineTerminator: LF, CR (U+2028 and U+2029 lie outside the code units
    modelled).  [.] matches everything else. *)
Definition isLineTerminator (c : ascii) : bool :=
  (code c =? 10)%N || (code c =? 13)%N.

(** [\s], and what [trim] strips: TAB, LF, VT, FF, CR, SP, NBSP. *)
Definition isSpace (c : ascii) : bool :=
  ((9 <=? code c)%N && (code c <=? 13)%N)
  || (code c =? 32)%N || (code c =? 160)%N.

(** [[:\s]] *)
Definition isColonOrSpace (c : ascii) : bool :=
  (code c =? 58)%N || isSpace c.

(** Case folding of the [i] flag, for a pattern character that is an ASCII
    letter, digit or space: only the ASCII letter of the other case folds
    onto it. *)
Definition lower (c : ascii) : ascii :=
  if (65 <=? code c)%N && (code c <=? 90)%N
  then ascii_of_N (code c + 32) else c.

Definition ciEqb (c p : ascii) : bool := Ascii.eqb (lower c) (lower p).

(** ** Strings *)

(** Longest prefix whose characters satisfy [p], and the rest. *)
Fixpoint span (p : ascii -> bool) (s : string) : string * string :=
  match s with
  | EmptyString => (EmptyString, EmptyString)
  | String c r =>
      if p c then let (a, b) := span p r in (String c a, b)
      else (EmptyString, s)
  end.

Fixpoint dropWhile (p : ascii -> bool) (s : string) : string :=
  match s with
  | EmptyString => EmptyString
  | String c r => if p c then dropWhile p r else s
  end.

Fixpoint rev_string (s : string) : string :=
  match s with
  | EmptyString => EmptyString
  | String c r => rev_string r ++ String c EmptyString
  end.

(** [String.prototype.trim] *)
Definition trim (s : string) : string :=
  rev_string (dropWhile isSpace (rev_string (dropWhile isSpace s))).

(** [s.split('\n')]: never empty; the empty string gives one empty line. *)
Fixpoint split_lines (s : string) : list string :=
  match s with
  | EmptyString => [EmptyString]
  | String c r =>
      if (code c =? 10)%N then EmptyString :: split_lines r
      else match split_lines r with
           | l :: ls => String c l :: ls
           | [] => [String c EmptyString]
           end
  end.

(** [Array.prototype.indexOf] on strings (strict equality), [None] for -1. *)
Fixpoint indexOf (ls : list string) (x : string) : option nat :=
  match ls with
  | [] => None
  | l :: r => if String.eqb l x then Some 0
              else option_map S (indexOf r x)
  end.

(** [String(n)] for a non-negative integer. *)
Definition String_of_nat (n : nat) : string :=
  NilZero.string_of_uint (Nat.to_uint n).

(** Truthiness of a string: the empty string is falsy. *)
Definition truthy (s : string) : bool :=
  match s with EmptyString => false | _ => true end.

(** ** Regular-expression matching *)

(** The literal [p] at the start of [s], ignoring case: the text matched
    (as it is written in [s]) and what follows it. *)
Fixpoint ciPrefix (p s : string) : option (string * string) :=
  match p with
  | EmptyString => Some (EmptyString, s)
  | String pc pr =>
      match s with
      | EmptyString => None
      | String c r =>
          if ciEqb c pc
          then match ciPrefix pr r with
               | Some (m, rest) => Some (String c m, rest)
               | None => None
               end
          else None
      end
  end.

(** The leftmost match: [at_ s] tries the pattern at the start of [s]. *)
Fixpoint search {A} (at_ : string -> option A) (s : string) : option A :=
  match at_ s with
  | Some m => Some m
  | None => match s with
            | EmptyString => None
            | String _ r => search at_ r
            end
  end.

(** The common tail [[:\s]?.*] of the two heading patterns: an optional
    colon or space, then everything up to the next line terminator.  Both
    parts are greedy and what follows them can match the empty string, so
    no backtracking takes place. *)
Definition headingTail (s : string) : string :=
  match s with
  | EmptyString => EmptyString
  | String c r =>
      if isColonOrSpace c
      then String c (fst (span (fun x => negb (isLineTerminator x)) r))
      else fst (span (fun x => negb (isLineTerminator x)) s)
  end.

(** ** Numbers *)

(** The double of an integer; exact below 2^53. *)
Definition ofZ (z : Z) : float :=
  if (z <? 0)%Z then PrimFloat.opp (PrimFloat.of_uint63 (Uint63.of_Z (- z)))
  else PrimFloat.of_uint63 (Uint63.of_Z z).

Definition ofNat (n : nat) : float := ofZ (Z.of_nat n).

(** [Math.floor].  A finite double is [(-1)^s * m * 2^e]; it is an integer
    already when [0 <= e].  Zeros, infinities and NaN are returned as they
    are. *)
Definition Math_floor (x : float) : float :=
  match Prim2SF x with
  | S754_finite s m e =>
      if (0 <=? e)%Z then x
      else let d := (2 ^ (- e))%Z in
           if s then ofZ (- ((Z.pos m + d - 1) / d)) else ofZ (Z.pos m / d)
  | _ => x
  end.

(** [Math.ceil]; a negative fraction above -1 gives -0. *)
Definition Math_ceil (x : float) : float :=
  match Prim2SF x with
  | S754_finite s m e =>
      if (0 <=? e)%Z then x
      else let d := (2 ^ (- e))%Z in
           if s then PrimFloat.opp (ofZ (Z.pos m / d))
           else ofZ ((Z.pos m + d - 1) / d)
  | _ => x
  end.

(** [Math.max(a, b)] where [a] is not NaN and not a zero. *)
Definition Math_max (a b : float) : float :=
  if PrimFloat.is_nan b then PrimFloat.nan
  else if PrimFloat.ltb a b then b else a.

(** Truthiness of a number: zeros and NaN are falsy. *)
Definition truthyNum (x : float) : bool :=
  negb (PrimFloat.is_nan x || PrimFloat.is_zero x).

End Js.

(* ================================================================== *)
(** * The table-of-contents extractor ([processTableOfContents]) *)
(* ================================================================== *)

Module Toc.

Import Js.
Local Open Scope string_scope.

Inductive EntryType := frontmatter | chapter | subchapter.

(** [pageNumber] of an entry: the roman label (a string) of a front-matter
    entry, the page counter (a number) otherwise. *)
Inductive PageLabel :=
| PStr (s : string)
| PNum (n : nat).

Record Entry := mkEntry {
  type : EntryType;
  title : string;
  content : string;
  pageNumber : PageLabel
}.

(** The locals of [processTableOfContents] that the two loops update.
    [seenHeadings] is a JS [Set]: it keeps its elements in insertion order,
    [has] is membership and [add] appends a new element. *)
Record State := mkState {
  tableOfContents : list Entry;
  seenHeadings : list string;
  pageCounter : nat;
  isMainContentStarted : bool;
  romanIndex : nat
}.

Definition has (seen : list string) (h : string) : bool :=
  existsb (String.eqb h) seen.

Definition romanNumerals : list string :=
  ["i"; "ii"; "iii"; "iv"; "v"; "vi"; "vii"; "viii"; "ix"; "x"].

(** [/(Kata Pengantar|Daftar Isi)/gi] tried at the start of [s]. *)
Definition specialSectionAt (s : string) : option string :=
  match ciPrefix "Kata Pengantar" s with
  | Some (m, _) => Some m
  | None => match ciPrefix "Daftar Isi" s with
            | Some (m, _) => Some m
            | None => None
            end
  end.

(** [/Bab \d+[:\s]?.*/gi] tried at the start of [s]. *)
Definition babAt (s : string) : option string :=
  match ciPrefix "Bab " s with
  | Some (m, r) =>
      let (ds, r1) := span isDigit r in
      match ds with
      | EmptyString => None
      | _ => Some (m ++ ds ++ headingTail r1)
      end
  | None => None
  end.

(** [/\d+\.\d+[:\s]?.*/gi] tried at the start of [s].  The first [\d+]
    takes the whole run of digits: giving one back would leave a digit
    where the dot has to be. *)
Definition subbabAt (s : string) : option string :=
  let (d1, r) := span isDigit s in
  match d1, r with
  | String _ _, String "." r' =>
      let (d2, r2) := span isDigit r' in
      match d2 with
      | EmptyString => None
      | _ => Some (d1 ++ "." ++ d2 ++ headingTail r2)
      end
  | _, _ => None
  end.

(** [/Bab 1/i.test(text)] *)
Definition testBab1 (text : string) : bool :=
  match search (ciPrefix "Bab 1") text with
  | Some _ => true
  | None => false
  end.

(** [line.match(pattern)] followed by [[0]]: with the [g] flag [match]
    starts at index 0 and lists every match, the leftmost one first. *)
Definition specialMatch (line : string) : option string := search specialSectionAt line.
Definition babMatch (line : string) : option string := search babAt line.
Definition subbabMatch (line : string) : option string := search subbabAt line.

(** [romanNumerals[romanIndex] || String(romanIndex + 1)] *)
Definition romanPageOf (romanIndex : nat) : string :=
  match nth_error romanNumerals romanIndex with
  | Some r => if truthy r then r else String_of_nat (romanIndex + 1)
  | None => String_of_nat (romanIndex + 1)
  end.

(** Lines 49-63: the front-matter marker. *)
Definition specialStep (line : string) (st : State) : State :=
  match specialMatch line with
  | Some m =>
      let specialHeading := trim m in
      if has (seenHeadings st) specialHeading then st
      else
        let romanPage := romanPageOf (romanIndex st) in
        {| tableOfContents :=
             tableOfContents st ++
             [ {| type := frontmatter;
                  title := specialHeading;
                  content := specialHeading ++ " - Halaman " ++ romanPage;
                  pageNumber := PStr romanPage |} ];
           seenHeadings := seenHeadings st ++ [specialHeading];
           pageCounter := pageCounter st;
           isMainContentStarted := isMainContentStarted st;
           romanIndex := romanIndex st + 1 |}
  | None => st
  end.

(** [lines[lines.indexOf(line) + 1]], then
    [nextLine ? nextLine.trim() : ''] *)
Definition babTitleOf (lines : list string) (line : string) : string :=
  let nextLine :=
    match indexOf lines line with
    | Some i => nth_error lines (i + 1)
    | None => nth_error lines 0
    end in
  match nextLine with
  | Some l => if truthy l then trim l else ""
  | None => ""
  end.

(** Lines 65-81: the chapter marker. *)
Definition babStep (lines : list string) (line : string) (st : State) : State :=
  match babMatch line with
  | Some m =>
      let babHeading := trim m in
      if has (seenHeadings st) babHeading then st
      else
        let babTitle := babTitleOf lines line in
        if isMainContentStarted st then
          {| tableOfContents :=
               tableOfContents st ++
               [ {| type := chapter;
                    title := babTitle;
                    content := "BAB "
                               ++ String_of_nat (List.length (tableOfContents st) + 1)
                               ++ " : " ++ babTitle;
                    pageNumber := PNum (pageCounter st) |} ];
             seenHeadings := seenHeadings st ++ [babHeading];
             pageCounter := pageCounter st;
             isMainContentStarted := isMainContentStarted st;
             romanIndex := romanIndex st |}
        else st
  | None => st
  end.

(** Lines 83-95: the subchapter marker. *)
Definition subbabStep (line : string) (st : State) : State :=
  match subbabMatch line with
  | Some m =>
      let subbabHeading := trim m in
      if negb (has (seenHeadings st) subbabHeading) && isMainContentStarted st then
        {| tableOfContents :=
             tableOfContents st ++
             [ {| type := subchapter;
                  title := subbabHeading;
                  content := subbabHeading ++ " - Halaman "
                             ++ String_of_nat (pageCounter st);
                  pageNumber := PNum (pageCounter st) |} ];
           seenHeadings := seenHeadings st ++ [subbabHeading];
           pageCounter := pageCounter st;
           isMainContentStarted := isMainContentStarted st;
           romanIndex := romanIndex st |}
      else st
  | None => st
  end.

(** The body of [lines.forEach]. *)
Definition lineStep (lines : list string) (st : State) (line : string) : State :=
  subbabStep line (babStep lines line (specialStep line st)).

(** Lines 42-45: the first page that mentions [Bab 1] starts the main
    content and sets the page counter to 1. *)
Definition startMainContent (text : string) (st : State) : State :=
  if negb (isMainContentStarted st) && testBab1 text then
    {| tableOfContents := tableOfContents st;
       seenHeadings := seenHeadings st;
       pageCounter := 1;
       isMainContentStarted := true;
       romanIndex := romanIndex st |}
  else st.

(** Lines 98-100. *)
Definition endPage (st : State) : State :=
  if isMainContentStarted st then
    {| tableOfContents := tableOfContents st;
       seenHeadings := seenHeadings st;
       pageCounter := pageCounter st + 1;
       isMainContentStarted := isMainContentStarted st;
       romanIndex := romanIndex st |}
  else st.

(** The body of [pagesText.forEach]. *)
Definition pageStep (st : State) (text : string) : State :=
  let st1 := startMainContent text st in
  let lines := split_lines text in
  endPage (fold_left (lineStep lines) lines st1).

Definition initialState : State :=
  {| tableOfContents := [];
     seenHeadings := [];
     pageCounter := 0;
     isMainContentStarted := false;
     romanIndex := 0 |}.

(** The state when the outer loop ends. *)
Definition run (pagesText : list string) : State :=
  fold_left pageStep pagesText initialState.

Definition processTableOfContents (pagesText : list string) : list Entry :=
  tableOfContents (run pagesText).

End Toc.

(* ================================================================== *)
(** * Loading the pages ([loadPDF], [extractTableOfContents]) *)
(* ================================================================== *)

Module Pdf.

Local Open Scope string_scope.

(** What the PDF library hands over once every promise has resolved: for
    each page, in order, the [str] of the items of its text content. *)
Definition Document := list (list string).

(** The outcome of an [async] function: the value it resolves to, or the
    message of the [Error] it rejects with. *)
Inductive Outcome (A : Type) :=
| Resolved (a : A)
| Rejected (message : string).
Arguments Resolved {A} a.
Arguments Rejected {A} message.

(** [Array.prototype.join] on strings. *)
Fixpoint join (sep : string) (items : list string) : string :=
  match items with
  | [] => ""
  | [a] => a
  | a :: r => a ++ sep ++ join sep r
  end.

(** Lines 15-28: one string per page, the items joined by a line feed. *)
Definition loadPDF (pdf : Document) : list string :=
  map (join (String (ascii_of_nat 10) EmptyString)) pdf.

(** Lines 5-13.  [loaded] is the document when the library delivers it and
    the message of what it threw otherwise; whatever was thrown is replaced
    by one fixed message. *)
Definition extractTableOfContents (loaded : Outcome Document)
  : Outcome (list Toc.Entry) :=
  match loaded with
  | Resolved pdf => Resolved (Toc.processTableOfContents (loadPDF pdf))
  | Rejected _ => Rejected "Gagal mengekstrak daftar isi dari PDF"
  end.

End Pdf.

(* ================================================================== *)
(** * The chapter and settings store ([useEbookStore.ts]) *)
(* ================================================================== *)

Module Store.

Import Js.
Local Open Scope string_scope.

(** ** Types

    Modelled from the spec: [../types] ([Chapter], [SubChapter], the image
    type and [EbookSettings]) is not among the sources; the fields are
    those the store reads and writes, [defaultSettings] spells out, and
    section 3 of the specification lists. *)

Inductive ChapterType := frontmatter | toc | chapter | backmatter.

Record Image := mkImage {
  width : float
}.

Record SubChapter := mkSubChapter {
  sub_id : string;
  sub_title : string;
  sub_content : string;
  sub_pageNumber : option float
}.

Record Chapter := mkChapter {
  id : string;
  title : string;
  content : string;
  images : list Image;
  type : ChapterType;
  indentation : float;
  lineSpacing : float;
  pageNumber : option float;
  subChapters : list SubChapter
}.

(** [Partial<Chapter>]: [None] for a key that is absent. *)
Record PartialChapter := mkPartialChapter {
  p_id : option string;
  p_title : option string;
  p_content : option string;
  p_images : option (list Image);
  p_type : option ChapterType;
  p_indentation : option float;
  p_lineSpacing : option float;
  p_pageNumber : option float;
  p_subChapters : option (list SubChapter)
}.

Record Margins := mkMargins {
  top : float;
  bottom : float;
  left : float;
  right : float
}.

Record FontSpec := mkFontSpec {
  family : string;
  size : float;
  alignment : string;
  lineHeight : float
}.

Record Fonts := mkFonts {
  f_title : FontSpec;
  f_subtitle : FontSpec;
  paragraph : FontSpec;
  f_header : FontSpec;
  f_footer : FontSpec;
  frontmatterContent : FontSpec;
  chapterContent : FontSpec;
  subchapterContent : FontSpec;
  backmatterContent : FontSpec
}.

Record PageNumbering := mkPageNumbering {
  pn_enabled : bool;
  startFrom : float;
  position : string;
  pn_alignment : string;
  style : string
}.

Record HeaderFooter := mkHeaderFooter {
  enabled : bool;
  text : string;
  alternateEvenOdd : bool
}.

Record EbookSettings := mkEbookSettings {
  s_title : string;
  author : string;
  description : string;
  coverImage : option string;
  backCoverImage : option string;
  paperSize : string;
  margins : Margins;
  fonts : Fonts;
  pageNumbering : PageNumbering;
  header : HeaderFooter;
  footer : HeaderFooter
}.

(** [Partial<EbookSettings>] *)
Record PartialSettings := mkPartialSettings {
  ps_title : option string;
  ps_author : option string;
  ps_description : option string;
  ps_coverImage : option (option string);
  ps_backCoverImage : option (option string);
  ps_paperSize : option string;
  ps_margins : option Margins;
  ps_fonts : option Fonts;
  ps_pageNumbering : option PageNumbering;
  ps_header : option HeaderFooter;
  ps_footer : option HeaderFooter
}.

(** The state the store holds; the operations are its methods. *)
Record EbookStore := mkEbookStore {
  chapters : list Chapter;
  settings : EbookSettings
}.

Definition helvetica (sz : float) (al : string) (lh : float) : FontSpec :=
  {| family := "Helvetica"; size := sz; alignment := al; lineHeight := lh |}.

Definition defaultSettings : EbookSettings :=
  {| s_title := "";
     author := "";
     description := "";
     coverImage := None;
     backCoverImage := None;
     paperSize := "A4";
     margins := {| top := 2.54; bottom := 2.54; left := 2.54; right := 2.54 |};
     fonts :=
       {| f_title := helvetica 24 "center" 1.5;
          f_subtitle := helvetica 18 "left" 1.5;
          paragraph := helvetica 12 "justify" 1.5;
          f_header := helvetica 10 "center" 1.2;
          f_footer := helvetica 10 "center" 1.2;
          frontmatterContent := helvetica 12 "justify" 1.5;
          chapterContent := helvetica 12 "justify" 1.5;
          subchapterContent := helvetica 12 "justify" 1.5;
          backmatterContent := helvetica 12 "justify" 1.5 |};
     pageNumbering :=
       {| pn_enabled := true; startFrom := 1; position := "bottom";
          pn_alignment := "center"; style := "decimal" |};
     header := {| enabled := false; text := ""; alternateEvenOdd := false |};
     footer := {| enabled := false; text := ""; alternateEvenOdd := false |} |}.

(** The store as [create] builds it. *)
Definition initialStore : EbookStore :=
  {| chapters := []; settings := defaultSettings |}.

(** ** Helpers *)

Definition or_default {A} (o : option A) (d : A) : A :=
  match o with Some a => a | None => d end.

Definition isChapter (ch : Chapter) : bool :=
  match type ch with chapter => true | _ => false end.

Definition isFrontmatter (ch : Chapter) : bool :=
  match type ch with frontmatter => true | _ => false end.

Definition isToc (ch : Chapter) : bool :=
  match type ch with toc => true | _ => false end.

Definition isBackmatter (ch : Chapter) : bool :=
  match type ch with backmatter => true | _ => false end.

(** [type === 'frontmatter' || type === 'toc'] *)
Definition isPreContent (ch : Chapter) : bool :=
  match type ch with frontmatter | toc => true | _ => false end.

(** [{ ...ch, pageNumber: n }] *)
Definition withPageNumber (ch : Chapter) (n : float) : Chapter :=
  {| id := id ch; title := title ch; content := content ch;
     images := images ch; type := type ch;
     indentation := indentation ch; lineSpacing := lineSpacing ch;
     pageNumber := Some n; subChapters := subChapters ch |}.

(** [{ ...ch, subChapters: subs }] *)
Definition withSubChapters (ch : Chapter) (subs : list SubChapter) : Chapter :=
  {| id := id ch; title := title ch; content := content ch;
     images := images ch; type := type ch;
     indentation := indentation ch; lineSpacing := lineSpacing ch;
     pageNumber := pageNumber ch; subChapters := subs |}.

(** [{ ...ch, ...chapter }] *)
Definition merge (ch : Chapter) (p : PartialChapter) : Chapter :=
  {| id := or_default (p_id p) (id ch);
     title := or_default (p_title p) (title ch);
     content := or_default (p_content p) (content ch);
     images := or_default (p_images p) (images ch);
     type := or_default (p_type p) (type ch);
     indentation := or_default (p_indentation p) (indentation ch);
     lineSpacing := or_default (p_lineSpacing p) (lineSpacing ch);
     pageNumber := match p_pageNumber p with
                   | Some n => Some n
                   | None => pageNumber ch
                   end;
     subChapters := or_default (p_subChapters p) (subChapters ch) |}.

(** The pass that ends [addChapter], [updateChapter] and [removeChapter]:
    [let chapterNumber = 1] and a [map] that gives each entry of type
    [chapter] the number [chapterNumber++] and returns the others as they
    are. *)
Fixpoint numberFrom (chapterNumber : nat) (l : list Chapter) : list Chapter :=
  match l with
  | [] => []
  | ch :: r =>
      if isChapter ch
      then withPageNumber ch (ofNat chapterNumber) :: numberFrom (S chapterNumber) r
      else ch :: numberFrom chapterNumber r
  end.

Definition numberChapters (l : list Chapter) : list Chapter := numberFrom 1 l.

(** [while (i < a.length && p(a[i])) i++], as the new value of [i]. *)
Fixpoint countWhile (p : Chapter -> bool) (l : list Chapter) : nat :=
  match l with
  | ch :: r => if p ch then S (countWhile p r) else 0
  | [] => 0
  end.

Definition skipWhile (p : Chapter -> bool) (l : list Chapter) (i : nat) : nat :=
  i + countWhile p (skipn i l).

(** [a.splice(i, 0, x)] for [i <= a.length] *)
Definition splice_insert (l : list Chapter) (i : nat) (x : Chapter) : list Chapter :=
  firstn i l ++ x :: skipn i l.

(** ** [addChapter]

    [newId] is the value of [crypto.randomUUID()]. *)
Definition newChapterOf (newId : string) (p : PartialChapter) : Chapter :=
  {| id := newId;
     title := match p_title p with
              | Some t => if truthy t then t else "New Chapter"
              | None => "New Chapter"
              end;
     content := or_default (p_content p) "";
     images := or_default (p_images p) [];
     type := or_default (p_type p) chapter;
     indentation := match p_indentation p with
                    | Some x => if truthyNum x then x else 0%float
                    | None => 0%float
                    end;
     lineSpacing := match p_lineSpacing p with
                    | Some x => if truthyNum x then x else 1.5%float
                    | None => 1.5%float
                    end;
     pageNumber := None;
     subChapters := or_default (p_subChapters p) [] |}.

Definition insertIndexOf (newChapter : Chapter) (updatedChapters : list Chapter) : nat :=
  match type newChapter with
  | frontmatter | toc => skipWhile isPreContent updatedChapters 0
  | chapter =>
      skipWhile isChapter updatedChapters
        (skipWhile isPreContent updatedChapters 0)
  | backmatter => List.length updatedChapters
  end.

Definition addChapter (newId : string) (p : PartialChapter) (state : EbookStore)
  : EbookStore :=
  let newChapter := newChapterOf newId p in
  let updatedChapters :=
    splice_insert (chapters state) (insertIndexOf newChapter (chapters state))
      newChapter in
  {| chapters := numberChapters updatedChapters; settings := settings state |}.

(** ** [updateChapter] *)
Definition updateChapter (i : string) (p : PartialChapter) (state : EbookStore)
  : EbookStore :=
  let updatedChapters :=
    map (fun ch => if String.eqb (id ch) i then merge ch p else ch)
      (chapters state) in
  {| chapters := numberChapters updatedChapters; settings := settings state |}.

(** ** [removeChapter] *)
Definition removeChapter (i : string) (state : EbookStore) : EbookStore :=
  let filteredChapters :=
    filter (fun ch => negb (String.eqb (id ch) i)) (chapters state) in
  {| chapters := numberChapters filteredChapters; settings := settings state |}.

(** ** [updateSettings]: [{ ...state.settings, ...settings }] *)
Definition mergeSettings (s : EbookSettings) (p : PartialSettings) : EbookSettings :=
  {| s_title := or_default (ps_title p) (s_title s);
     author := or_default (ps_author p) (author s);
     description := or_default (ps_description p) (description s);
     coverImage := or_default (ps_coverImage p) (coverImage s);
     backCoverImage := or_default (ps_backCoverImage p) (backCoverImage s);
     paperSize := or_default (ps_paperSize p) (paperSize s);
     margins := or_default (ps_margins p) (margins s);
     fonts := or_default (ps_fonts p) (fonts s);
     pageNumbering := or_default (ps_pageNumbering p) (pageNumbering s);
     header := or_default (ps_header p) (header s);
     footer := or_default (ps_footer p) (footer s) |}.

Definition updateSettings (p : PartialSettings) (state : EbookStore) : EbookStore :=
  {| chapters := chapters state; settings := mergeSettings (settings state) p |}.

(** ** [calculatePageNumbers] *)

(** The two running counters. *)
Record Counters := mkCounters {
  romanPageCount : float;
  arabicPageCount : float
}.

(** A [map] whose callback updates the locals [s] of the enclosing
    function: the state is threaded from left to right. *)
Fixpoint mapAccum {S A B} (f : S -> A -> S * B) (s : S) (l : list A)
  : S * list B :=
  match l with
  | [] => (s, [])
  | a :: r =>
      let (s1, b) := f s a in
      let (s2, bs) := mapAccum f s1 r in
      (s2, b :: bs)
  end.

Local Open Scope float_scope.

(** Lines 225-231: the approximate number of characters on a page. *)
Definition charsPerPageOf (settings : EbookSettings) : float :=
  let pageWidth := if String.eqb (paperSize settings) "A4" then 210 else 216 in
  let pageHeight := if String.eqb (paperSize settings) "A4" then 297 else 279 in
  let contentWidth :=
    pageWidth - (left (margins settings) + right (margins settings)) * 10 in
  let contentHeight :=
    pageHeight - (top (margins settings) + bottom (margins settings)) * 10 in
  let charsPerLine :=
    Math_floor (contentWidth / (size (paragraph (fonts settings)) * 0.352778)) in
  let linesPerPage :=
    Math_floor
      (contentHeight /
       (size (paragraph (fonts settings))
        * lineHeight (paragraph (fonts settings)) * 0.352778)) in
  charsPerLine * linesPerPage.

(** [if (settings.coverImage)]: [null] and the empty string are falsy. *)
Definition hasCover (settings : EbookSettings) : bool :=
  match coverImage settings with
  | Some s => truthy s
  | None => false
  end.

(** Lines 221-222 and 233-239: the counters when the [map] over the
    chapters starts. *)
Definition initialCounters (settings : EbookSettings) : Counters :=
  let romanPageCount := 1 in
  let arabicPageCount := 1 in
  let arabicPageCount :=
    if hasCover settings then arabicPageCount + 1 else arabicPageCount in
  let arabicPageCount := arabicPageCount + 1 in
  {| romanPageCount := romanPageCount; arabicPageCount := arabicPageCount |}.

(** [isPreContent ? romanPageCount : arabicPageCount] *)
Definition current (isPre : bool) (c : Counters) : float :=
  if isPre then romanPageCount c else arabicPageCount c.

(** [if (isPreContent) romanPageCount += n; else arabicPageCount += n;] *)
Definition advance (isPre : bool) (n : float) (c : Counters) : Counters :=
  if isPre
  then {| romanPageCount := romanPageCount c + n;
          arabicPageCount := arabicPageCount c |}
  else {| romanPageCount := romanPageCount c;
          arabicPageCount := arabicPageCount c + n |}.

(** Lines 257-264: the [reduce] over the images. *)
Definition imagePagesOf (imgs : list Image) : float :=
  fold_left
    (fun total image =>
       if 50 <? width image then total + 1 else total + 0.5)
    imgs 0.

(** Lines 252-270 *)
Definition totalPagesOf (charsPerPage : float) (ch : Chapter) : float :=
  let contentLength := ofNat (String.length (content ch)) in
  let contentPages := Math_ceil (contentLength / charsPerPage) in
  let imagePages := imagePagesOf (images ch) in
  let totalImagePages := Math_ceil imagePages in
  Math_max 1 (contentPages + totalImagePages).

(** Lines 279-294: the callback of [chapter.subChapters.map]. *)
Definition subChapterStep (charsPerPage : float) (isPre : bool)
    (c : Counters) (sub : SubChapter) : Counters * SubChapter :=
  let subContentLength := ofNat (String.length (sub_content sub)) in
  let subPages := Math_max 1 (Math_ceil (subContentLength / charsPerPage)) in
  let subPageNumber := current isPre c in
  (advance isPre subPages c,
   {| sub_id := sub_id sub; sub_title := sub_title sub;
      sub_content := sub_content sub;
      sub_pageNumber := Some subPageNumber |}).

(** Lines 241-301: the callback of [chapters.map]. *)
Definition chapterStep (charsPerPage : float) (c : Counters) (ch : Chapter)
  : Counters * Chapter :=
  let isPre := isPreContent ch in
  let pageCount := current isPre c in
  let c1 := advance isPre 1 c in
  let totalPages := totalPagesOf charsPerPage ch in
  let c2 := advance isPre totalPages c1 in
  let (c3, subs) :=
    mapAccum (subChapterStep charsPerPage isPre) c2 (subChapters ch) in
  (c3,
   {| id := id ch; title := title ch; content := content ch;
      images := images ch; type := type ch;
      indentation := indentation ch; lineSpacing := lineSpacing ch;
      pageNumber := Some pageCount; subChapters := subs |}).

Definition calculatePageNumbers (state : EbookStore) : EbookStore :=
  let charsPerPage := charsPerPageOf (settings state) in
  let updatedChapters :=
    snd (mapAccum (chapterStep charsPerPage)
           (initialCounters (settings state)) (chapters state)) in
  {| chapters := updatedChapters; settings := settings state |}.

Local Close Scope float_scope.

(** ** [reorderChapters] *)

(** [mainChapters.map(ch => ({ ...ch, pageNumber: chapterNumber++ }))] *)
Fixpoint numberAll (chapterNumber : nat) (l : list Chapter) : list Chapter :=
  match l with
  | [] => []
  | ch :: r => withPageNumber ch (ofNat chapterNumber) :: numberAll (S chapterNumber) r
  end.

Definition orderedChaptersOf (l : list Chapter) : list Chapter :=
  let frontmatterChapters := filter isFrontmatter l in
  let tocChapters := filter isToc l in
  let mainChapters := filter isChapter l in
  let backmatterChapters := filter isBackmatter l in
  let numberedMainChapters := numberAll 1 mainChapters in
  frontmatterChapters ++ tocChapters ++ numberedMainChapters ++ backmatterChapters.

Definition reorderChapters (l : list Chapter) (state : EbookStore) : EbookStore :=
  calculatePageNumbers
    {| chapters := orderedChaptersOf l; settings := settings state |}.

(** ** [addSubChapter] and [removeSubChapter] *)

Definition addSubChapter (newId : string) (chapterId : string) (t : string)
    (state : EbookStore) : EbookStore :=
  calculatePageNumbers
    {| chapters :=
         map (fun ch =>
                if String.eqb (id ch) chapterId
                then withSubChapters ch
                       (subChapters ch ++
                        [ {| sub_id := newId; sub_title := t;
                             sub_content := ""; sub_pageNumber := None |} ])
                else ch)
             (chapters state);
       settings := settings state |}.

Definition removeSubChapter (chapterId subChapterId : string)
    (state : EbookStore) : EbookStore :=
  calculatePageNumbers
    {| chapters :=
         map (fun ch =>
                if String.eqb (id ch) chapterId
                then withSubChapters ch
                       (filter (fun sub => negb (String.eqb (sub_id sub) subChapterId))
                          (subChapters ch))
                else ch)
             (chapters state);
       settings := settings state |}.

End Store.

(* ================================================================== *)
(** * Vocabulary of the properties *)
(* ================================================================== *)

Local Open Scope string_scope.

Definition LF : string := String (ascii_of_nat 10) EmptyString.

(** ** Extractor *)

(** The four pages of the worked example. *)
Definition examplePages : list string :=
  [ "Kata Pengantar" ++ LF ++ "hello";
    "Bab 1" ++ LF ++ "Introduction";
    "1.1 Overview" ++ LF ++ "body";
    "Bab 2" ++ LF ++ "Next" ].

(** One page on which the two front-matter labels are written in eleven
    ways that differ in case. *)
Definition elevenHeadings : list string :=
  [ "Kata Pengantar" ++ LF ++ "kata pengantar" ++ LF ++ "KATA PENGANTAR" ++ LF
    ++ "Kata pengantar" ++ LF ++ "kata Pengantar" ++ LF ++ "Daftar Isi" ++ LF
    ++ "daftar isi" ++ LF ++ "DAFTAR ISI" ++ LF ++ "Daftar isi" ++ LF
    ++ "daftar Isi" ++ LF ++ "dAFTAR iSI" ].

Definition isFrontmatterEntry (e : Toc.Entry) : bool :=
  match Toc.type e with Toc.frontmatter => true | _ => false end.

Definition isChapterEntry (e : Toc.Entry) : bool :=
  match Toc.type e with Toc.chapter => true | _ => false end.

(** Entry [e] is what the loop body pushes for heading text [h] when it
    meets [line] among the [lines] of a page. *)
Definition emits (lines : list string) (line h : string) (e : Toc.Entry) : Prop :=
  (Toc.type e = Toc.frontmatter /\ Toc.title e = h /\
   exists m, Toc.specialMatch line = Some m /\ h = Js.trim m)
  \/
  (Toc.type e = Toc.chapter /\ Toc.title e = Toc.babTitleOf lines line /\
   exists m, Toc.babMatch line = Some m /\ h = Js.trim m)
  \/
  (Toc.type e = Toc.subchapter /\ Toc.title e = h /\
   exists m, Toc.subbabMatch line = Some m /\ h = Js.trim m).

(** Entry [e] was pushed for heading text [h] on some line of some page. *)
Definition emittedFor (pagesText : list string) (h : string) (e : Toc.Entry) : Prop :=
  exists text line,
    In text pagesText /\ In line (Js.split_lines text) /\
    emits (Js.split_lines text) line h e.

(** The set of headings and the list of entries grow together: the
    headings are pairwise distinct and [P] relates each to the entry at its
    position. *)
Definition recordedOnce (P : string -> Toc.Entry -> Prop) (st : Toc.State) : Prop :=
  NoDup (Toc.seenHeadings st) /\
  Forall2 P (Toc.seenHeadings st) (Toc.tableOfContents st).

(** [romanIndex] counts the front-matter entries, and the k-th of them
    (from 0) carries the k-th roman label. *)
Definition romanLabelled (st : Toc.State) : Prop :=
  Toc.romanIndex st
  = List.length (filter isFrontmatterEntry (Toc.tableOfContents st)) /\
  forall k e,
    nth_error (filter isFrontmatterEntry (Toc.tableOfContents st)) k = Some e ->
    Toc.pageNumber e = Toc.PStr (Toc.romanPageOf k) /\
    Toc.content e = Toc.title e ++ " - Halaman " ++ Toc.romanPageOf k.

(** The label of a chapter entry carries its position in the output,
    counted from 1. *)
Definition labelledByLength (st : Toc.State) : Prop :=
  forall k e,
    nth_error (Toc.tableOfContents st) k = Some e -> Toc.type e = Toc.chapter ->
    Toc.content e
    = "BAB " ++ Js.String_of_nat (k + 1) ++ " : " ++ Toc.title e.

(** The string in lower case (ASCII letters). *)
Fixpoint lowerString (s : string) : string :=
  match s with
  | EmptyString => EmptyString
  | String c r => String (Js.lower c) (lowerString r)
  end.

(** The string holds no line feed. *)
Fixpoint noLineFeed (s : string) : Prop :=
  match s with
  | EmptyString => True
  | String c r => (Js.code c =? 10)%N = false /\ noLineFeed r
  end.

(** The page numbers of the chapter and subchapter entries, in output
    order. *)
Definition pageNumbers (es : list Toc.Entry) : list nat :=
  flat_map (fun e => match Toc.pageNumber e with
                     | Toc.PNum m => [m]
                     | Toc.PStr _ => []
                     end) es.

(** The state while ([eb = n + 1]) and before ([eb = n]) the page of index
    [n] is scanned: the page counter is at least 1 and at most [pb] once the
    main content has started; no entry carries a number before that; the
    numbers lie between 1 and [eb], do not pass the page counter, and do
    not decrease along the output. *)
Definition pagesBounded (eb pb : nat) (st : Toc.State) : Prop :=
  (Toc.isMainContentStarted st = true ->
   1 <= Toc.pageCounter st /\ Toc.pageCounter st <= pb) /\
  Forall (fun m => Toc.isMainContentStarted st = true /\
                   1 <= m /\ m <= eb /\ m <= Toc.pageCounter st)
    (pageNumbers (Toc.tableOfContents st)) /\
  StronglySorted le (pageNumbers (Toc.tableOfContents st)).

(** The type of an entry fixes the kind of its page label and the form of
    its content label. *)
Definition wellFormed (e : Toc.Entry) : Prop :=
  match Toc.type e, Toc.pageNumber e with
  | Toc.frontmatter, Toc.PStr r =>
      Toc.content e = Toc.title e ++ " - Halaman " ++ r
  | Toc.chapter, Toc.PNum _ =>
      exists k, Toc.content e
                = "BAB " ++ Js.String_of_nat k ++ " : " ++ Toc.title e
  | Toc.subchapter, Toc.PNum m =>
      Toc.content e = Toc.title e ++ " - Halaman " ++ Js.String_of_nat m
  | _, _ => False
  end.

(** What the body of the inner loop can push while it scans [line] in
    state [st]: the entry, the heading text added to [seenHeadings], and
    the value of [romanIndex] afterwards. *)
Inductive pushes (lines : list string) (line : string) (st : Toc.State)
  : Toc.Entry -> string -> nat -> Prop :=
| push_special m :
    Toc.specialMatch line = Some m ->
    pushes lines line st
      {| Toc.type := Toc.frontmatter;
         Toc.title := Js.trim m;
         Toc.content := Js.trim m ++ " - Halaman "
                        ++ Toc.romanPageOf (Toc.romanIndex st);
         Toc.pageNumber := Toc.PStr (Toc.romanPageOf (Toc.romanIndex st)) |}
      (Js.trim m) (Toc.romanIndex st + 1)
| push_bab m :
    Toc.babMatch line = Some m ->
    Toc.isMainContentStarted st = true ->
    pushes lines line st
      {| Toc.type := Toc.chapter;
         Toc.title := Toc.babTitleOf lines line;
         Toc.content := "BAB "
                        ++ Js.String_of_nat (List.length (Toc.tableOfContents st) + 1)
                        ++ " : " ++ Toc.babTitleOf lines line;
         Toc.pageNumber := Toc.PNum (Toc.pageCounter st) |}
      (Js.trim m) (Toc.romanIndex st)
| push_subbab m :
    Toc.subbabMatch line = Some m ->
    Toc.isMainContentStarted st = true ->
    pushes lines line st
      {| Toc.type := Toc.subchapter;
         Toc.title := Js.trim m;
         Toc.content := Js.trim m ++ " - Halaman "
                        ++ Js.String_of_nat (Toc.pageCounter st);
         Toc.pageNumber := Toc.PNum (Toc.pageCounter st) |}
      (Js.trim m) (Toc.romanIndex st).

(** The state after a push. *)
Definition pushed (st : Toc.State) (e : Toc.Entry) (h : string) (ri : nat) : Toc.State :=
  {| Toc.tableOfContents := (Toc.tableOfContents st ++ [e])%list;
     Toc.seenHeadings := (Toc.seenHeadings st ++ [h])%list;
     Toc.pageCounter := Toc.pageCounter st;
     Toc.isMainContentStarted := Toc.isMainContentStarted st;
     Toc.romanIndex := ri |}.

(** No leading white space. *)
Definition headOK (s : string) : Prop :=
  match s with
  | EmptyString => True
  | String c _ => Js.isSpace c = false
  end.

(** ** Store *)

(** The entries of type [chapter] carry the numbers 1, 2, ..., K in list
    order. *)
Definition numbered (l : list Store.Chapter) : Prop :=
  map Store.pageNumber (filter Store.isChapter l)
  = map (fun k => Some (Js.ofNat k))
        (seq 1 (List.length (filter Store.isChapter l))).

(** The three operations that end with the renumbering pass. *)
Inductive Op :=
| Add (newId : string) (p : Store.PartialChapter)
| Update (i : string) (p : Store.PartialChapter)
| Remove (i : string).

Definition applyOp (state : Store.EbookStore) (op : Op) : Store.EbookStore :=
  match op with
  | Add newId p => Store.addChapter newId p state
  | Update i p => Store.updateChapter i p state
  | Remove i => Store.removeChapter i state
  end.

(** Every field of a subchapter but [pageNumber] is the same. *)
Definition subChapterKept (s s' : Store.SubChapter) : Prop :=
  Store.sub_id s' = Store.sub_id s /\
  Store.sub_title s' = Store.sub_title s /\
  Store.sub_content s' = Store.sub_content s.

(** Every field of a chapter but [pageNumber] is the same, and so are its
    subchapters, one by one, but for their [pageNumber]. *)
Definition chapterKept (c c' : Store.Chapter) : Prop :=
  Store.id c' = Store.id c /\
  Store.title c' = Store.title c /\
  Store.content c' = Store.content c /\
  Store.images c' = Store.images c /\
  Store.type c' = Store.type c /\
  Store.indentation c' = Store.indentation c /\
  Store.lineSpacing c' = Store.lineSpacing c /\
  Forall2 subChapterKept (Store.subChapters c) (Store.subChapters c').

(** An entry of another type than [chapter] is the same object; an entry
    of type [chapter] is the same but for its own [pageNumber]. *)
Definition renumberedFrom (c c' : Store.Chapter) : Prop :=
  if Store.isChapter c then exists n, c' = Store.withPageNumber c n else c' = c.

Definition emptyPartial : Store.PartialChapter :=
  Store.mkPartialChapter None None None None None None None None None.

Definition partialOfType (t : Store.ChapterType) : Store.PartialChapter :=
  Store.mkPartialChapter None None None None (Some t) None None None None.

(** The default settings with a cover image. *)
Definition coverSettings : Store.EbookSettings :=
  Store.mergeSettings Store.defaultSettings
    (Store.mkPartialSettings None None None (Some (Some "cover.png")) None
       None None None None None None).

(** A store with one chapter, numbered 1 by [addChapter]. *)
Definition oneChapter : Store.EbookStore :=
  Store.addChapter "c1" emptyPartial Store.initialStore.

(** The same store after [reorderChapters]: the chapter is on page 2. *)
Definition oneChapterPaged : Store.EbookStore :=
  Store.reorderChapters (Store.chapters oneChapter) oneChapter.

(** A store with a cover image and one front-matter entry. *)
Definition coverAndPreface : Store.EbookStore :=
  Store.addChapter "p1" (partialOfType Store.frontmatter)
    {| Store.chapters := []; Store.settings := coverSettings |}.

(** [oneChapter] after a subchapter "s1" was added to its chapter. *)
Definition withSection : Store.EbookStore :=
  Store.addSubChapter "s1" "c1" "Section" oneChapter.

(** The page numbers of the chapters, in list order, compared with a list
    of doubles. *)
Definition pagesAre (expected : list float) (state : Store.EbookStore) : bool :=
  let fix go (ps : list (option float)) (es : list float) : bool :=
    match ps, es with
    | [], [] => true
    | Some x :: ps', e :: es' => PrimFloat.eqb x e && go ps' es'
    | _, _ => false
    end in
  go (map Store.pageNumber (Store.chapters state)) expected.

(** The list is three consecutive segments: the frontmatter and toc
    entries (in any order among themselves), then the chapters, then the
    backmatter entries. *)
Definition segmented (l : list Store.Chapter) : Prop :=
  exists pre mn bm,
    l = (pre ++ mn ++ bm)%list /\
    Forall (fun c => Store.isPreContent c = true) pre /\
    Forall (fun c => Store.isChapter c = true) mn /\
    Forall (fun c => Store.isBackmatter c = true) bm.

(** The input of [reorderChapters] split by type, before any renumbering. *)
Definition byType (l : list Store.Chapter) : list Store.Chapter :=
  (filter Store.isFrontmatter l ++ filter Store.isToc l
   ++ filter Store.isChapter l ++ filter Store.isBackmatter l)%list.

(** The entries counted by the roman counter ([b = true]) or by the arabic
    counter ([b = false]). *)
Definition countedBy (b : bool) (c : Store.Chapter) : bool :=
  Bool.eqb (Store.isPreContent c) b.

(** A chapter and each of its subchapters carry a page number. *)
Definition paged (c : Store.Chapter) : Prop :=
  Store.pageNumber c <> None /\
  Forall (fun sub => Store.sub_pageNumber sub <> None) (Store.subChapters c).

(** A store with a toc entry only. *)
Definition tocOnly : Store.EbookStore :=
  Store.addChapter "t1" (partialOfType Store.toc) Store.initialStore.


(* ================================================================== *)
(** * Properties of the extractor *)
(* ================================================================== *)

Section TocInvariants.

Import Toc.

(** An invariant of the state holds when the outer loop ends if it holds
    at the start and each part of the loop body keeps it. *)
Lemma run_invariant (pagesText : list string) (I : State -> Prop) :
  I initialState ->
  (forall st text, In text pagesText -> I st -> I (startMainContent text st)) ->
  (forall st text line,
      In text pagesText -> In line (Js.split_lines text) ->
      I st -> I (lineStep (Js.split_lines text) st line)) ->
  (forall st, I st -> I (endPage st)) ->
  I (run pagesText).
Proof.
  intros Hinit Hstart Hline Hend. unfold run.
  assert (Hpages : forall l st, incl l pagesText -> I st -> I (fold_left pageStep l st)).
  { induction l as [|text l IH]; intros st Hincl Hst; simpl; [exact Hst|].
    apply IH; [intros x Hx; apply Hincl; right; exact Hx|].
    unfold pageStep. apply Hend.
    assert (Htext : In text pagesText) by (apply Hincl; left; reflexivity).
    assert (Hlines : forall ls s, incl ls (Js.split_lines text) -> I s ->
                                  I (fold_left (lineStep (Js.split_lines text)) ls s)).
    { induction ls as [|line ls IHl]; intros s Hi Hs; simpl; [exact Hs|].
      apply IHl; [intros x Hx; apply Hi; right; exact Hx|].
      apply Hline; auto. apply Hi; left; reflexivity. }
    apply Hlines; [apply incl_refl|]. apply Hstart; assumption. }
  apply Hpages; [apply incl_refl | exact Hinit].
Qed.

Lemma has_In (seen : list string) (h : string) :
  has seen h = true <-> In h seen.
Proof.
  unfold has. rewrite existsb_exists. split.
  - intros [x [Hx Heq]]. apply String.eqb_eq in Heq. subst. exact Hx.
  - intros Hin. exists h. split; [exact Hin | apply String.eqb_refl].
Qed.

Lemma NoDup_snoc (l : list string) (h : string) :
  NoDup l -> ~ In h l -> NoDup (l ++ [h]).
Proof.
  intros Hnd Hnin. induction Hnd as [|x l Hx Hnd IH]; simpl.
  - constructor; [intros [] | constructor].
  - constructor.
    + rewrite in_app_iff. intros [H | [H | []]]; [contradiction|].
      subst. apply Hnin. left. reflexivity.
    + apply IH. intros H. apply Hnin. right. exact H.
Qed.

(** ** The set of headings and the list of entries grow together *)
Lemma recordedOnce_push P st h e pc mc ri :
  recordedOnce P st -> has (seenHeadings st) h = false -> P h e ->
  recordedOnce P
    {| tableOfContents := tableOfContents st ++ [e];
       seenHeadings := seenHeadings st ++ [h];
       pageCounter := pc; isMainContentStarted := mc; romanIndex := ri |}.
Proof.
  intros [Hnd Hall] Hhas HP. split; simpl.
  - apply NoDup_snoc; [exact Hnd|].
    intros Hin. apply has_In in Hin. congruence.
  - apply Forall2_app; [exact Hall | constructor; [exact HP | constructor]].
Qed.

Lemma recordedOnce_lineStep P lines line st :
  (forall h e, emits lines line h e -> P h e) ->
  recordedOnce P st -> recordedOnce P (lineStep lines st line).
Proof.
  intros HP Hst. unfold lineStep.
  assert (H1 : recordedOnce P (specialStep line st)).
  { unfold specialStep. destruct (specialMatch line) as [m|] eqn:Hm; [|exact Hst].
    destruct (has (seenHeadings st) (Js.trim m)) eqn:Hhas; [exact Hst|].
    apply recordedOnce_push; [exact Hst | exact Hhas |].
    apply HP. left. simpl. repeat split. exists m. auto. }
  set (st1 := specialStep line st) in *. clearbody st1.
  assert (H2 : recordedOnce P (babStep lines line st1)).
  { unfold babStep. destruct (babMatch line) as [m|] eqn:Hm; [|exact H1].
    destruct (has (seenHeadings st1) (Js.trim m)) eqn:Hhas; [exact H1|].
    destruct (isMainContentStarted st1); [|exact H1].
    apply recordedOnce_push; [exact H1 | exact Hhas |].
    apply HP. right. left. simpl. repeat split. exists m. auto. }
  set (st2 := babStep lines line st1) in *. clearbody st2.
  unfold subbabStep. destruct (subbabMatch line) as [m|] eqn:Hm; [|exact H2].
  destruct (has (seenHeadings st2) (Js.trim m)) eqn:Hhas; simpl; [exact H2|].
  destruct (isMainContentStarted st2); [|exact H2].
  apply recordedOnce_push; [exact H2 | exact Hhas |].
  apply HP. right. right. simpl. repeat split. exists m. auto.
Qed.

Lemma recordedOnce_run pagesText :
  recordedOnce (emittedFor pagesText) (run pagesText).
Proof.
  apply run_invariant.
  - split; simpl; constructor.
  - intros st text _ H. unfold startMainContent.
    destruct (negb (isMainContentStarted st) && testBab1 text); exact H.
  - intros st text line Ht Hl H. apply recordedOnce_lineStep; [|exact H].
    intros h e He. exists text, line. auto.
  - intros st H. unfold endPage. destruct (isMainContentStarted st); exact H.
Qed.

(** Entries whose title is their heading text have pairwise distinct
    titles. *)
Lemma distinct_titles (P : string -> Entry -> Prop) (keep : Entry -> bool) :
  (forall h e, P h e -> keep e = true -> title e = h) ->
  forall hs es, Forall2 P hs es -> NoDup hs ->
    NoDup (map title (filter keep es)) /\
    (forall e, In e (filter keep es) -> In (title e) hs).
Proof.
  intros Hkey hs es Hall.
  induction Hall as [|h e hs es HP Hall IH]; intros Hnd; simpl.
  - split; [constructor | intros e []].
  - inversion Hnd as [|? ? Hnin Hnd']; subst.
    destruct (IH Hnd') as [IHnd IHin].
    destruct (keep e) eqn:Hk; simpl.
    + split.
      * constructor; [|exact IHnd].
        rewrite (Hkey h e HP Hk). intros Hin.
        apply in_map_iff in Hin. destruct Hin as [e' [Ht He']].
        apply Hnin. rewrite <- Ht. apply IHin. exact He'.
      * intros e' [He' | He']; [subst e'; left; symmetry; auto | right; auto].
    + split; [exact IHnd | intros e' He'; right; auto].
Qed.

(** ** The roman labels follow the number of front-matter entries *)

Lemma romanLabelled_lineStep lines line st :
  romanLabelled st -> romanLabelled (lineStep lines st line).
Proof.
  intros Hst. unfold lineStep.
  assert (H1 : romanLabelled (specialStep line st)).
  { unfold specialStep. destruct (specialMatch line) as [m|]; [|exact Hst].
    destruct (has (seenHeadings st) (Js.trim m)); [exact Hst|].
    destruct Hst as [Hidx Hlab]. unfold romanLabelled. simpl.
    rewrite filter_app. simpl. split.
    - rewrite length_app. simpl. lia.
    - intros k e Hk.
      destruct (Nat.lt_ge_cases k
                  (List.length (filter isFrontmatterEntry (tableOfContents st))))
        as [Hlt | Hge].
      + rewrite nth_error_app1 in Hk by exact Hlt. apply Hlab. exact Hk.
      + rewrite nth_error_app2 in Hk by exact Hge. rewrite <- Hidx in Hk, Hge.
        destruct (k - romanIndex st) as [|j] eqn:Hj; simpl in Hk.
        * assert (k = romanIndex st) by lia. subst k.
          injection Hk as <-. simpl. auto.
        * destruct j; discriminate. }
  set (st1 := specialStep line st) in *. clearbody st1.
  assert (H2 : romanLabelled (babStep lines line st1)).
  { unfold babStep. destruct (babMatch line) as [m|]; [|exact H1].
    destruct (has (seenHeadings st1) (Js.trim m)); [exact H1|].
    destruct (isMainContentStarted st1); [|exact H1].
    destruct H1 as [Hidx Hlab]. unfold romanLabelled. simpl.
    rewrite filter_app. simpl. rewrite app_nil_r. auto. }
  set (st2 := babStep lines line st1) in *. clearbody st2.
  unfold subbabStep. destruct (subbabMatch line) as [m|]; [|exact H2].
  destruct (negb (has (seenHeadings st2) (Js.trim m)) && isMainContentStarted st2);
    [|exact H2].
  destruct H2 as [Hidx Hlab]. unfold romanLabelled. simpl.
  rewrite filter_app. simpl. rewrite app_nil_r. auto.
Qed.

Lemma romanLabelled_run pagesText : romanLabelled (run pagesText).
Proof.
  apply run_invariant.
  - split; simpl; [reflexivity | intros [|k] e H; discriminate].
  - intros st text _ H. unfold startMainContent.
    destruct (negb (isMainContentStarted st) && testBab1 text); exact H.
  - intros st text line _ _ H. apply romanLabelled_lineStep. exact H.
  - intros st H. unfold endPage. destruct (isMainContentStarted st); exact H.
Qed.

(** ** The label of a chapter entry follows the length of the output *)

Lemma labelledByLength_push st e pc mc ri seen :
  labelledByLength st ->
  (type e = chapter ->
   content e = "BAB " ++ Js.String_of_nat (List.length (tableOfContents st) + 1)
               ++ " : " ++ title e) ->
  labelledByLength
    {| tableOfContents := tableOfContents st ++ [e];
       seenHeadings := seen;
       pageCounter := pc; isMainContentStarted := mc; romanIndex := ri |}.
Proof.
  intros Hst He k e' Hk Hty. simpl in Hk.
  destruct (Nat.lt_ge_cases k (List.length (tableOfContents st))) as [Hlt | Hge].
  - rewrite nth_error_app1 in Hk by exact Hlt. apply Hst; assumption.
  - rewrite nth_error_app2 in Hk by exact Hge.
    destruct (k - List.length (tableOfContents st)) as [|j] eqn:Hj; simpl in Hk.
    + assert (k = List.length (tableOfContents st)) by lia. subst k.
      injection Hk as <-. apply He. exact Hty.
    + destruct j; discriminate.
Qed.

Lemma labelledByLength_lineStep lines line st :
  labelledByLength st -> labelledByLength (lineStep lines st line).
Proof.
  intros Hst. unfold lineStep.
  assert (H1 : labelledByLength (specialStep line st)).
  { unfold specialStep. destruct (specialMatch line) as [m|]; [|exact Hst].
    destruct (has (seenHeadings st) (Js.trim m)); [exact Hst|].
    apply labelledByLength_push; [exact Hst | simpl; discriminate]. }
  set (st1 := specialStep line st) in *. clearbody st1.
  assert (H2 : labelledByLength (babStep lines line st1)).
  { unfold babStep. destruct (babMatch line) as [m|]; [|exact H1].
    destruct (has (seenHeadings st1) (Js.trim m)); [exact H1|].
    destruct (isMainContentStarted st1); [|exact H1].
    apply labelledByLength_push; [exact H1 | simpl; reflexivity]. }
  set (st2 := babStep lines line st1) in *. clearbody st2.
  unfold subbabStep. destruct (subbabMatch line) as [m|]; [|exact H2].
  destruct (negb (has (seenHeadings st2) (Js.trim m)) && isMainContentStarted st2);
    [|exact H2].
  apply labelledByLength_push; [exact H2 | simpl; discriminate].
Qed.

(** X23. Whatever the pages, the number in the label of a chapter entry is
    its position in the output, counted from 1 over the entries of all
    three types. *)
Lemma chapter_label_counts_all_entries pagesText k e :
  nth_error (processTableOfContents pagesText) k = Some e ->
  type e = chapter ->
  content e = "BAB " ++ Js.String_of_nat (k + 1) ++ " : " ++ title e.
Proof.
  revert k e. change (labelledByLength (run pagesText)).
  apply run_invariant.
  - intros [|k] e H; discriminate.
  - intros st text _ H. unfold startMainContent.
    destruct (negb (isMainContentStarted st) && testBab1 text); exact H.
  - intros st text line _ _ H. apply labelledByLength_lineStep. exact H.
  - intros st H. unfold endPage. destruct (isMainContentStarted st); exact H.
Qed.

End TocInvariants.

(** C7. Within one extraction run the headings recorded in [seenHeadings]
    are pairwise distinct and match the output entry by entry: each entry
    was pushed for the heading text at its position, the trimmed match of
    the front-matter, chapter or subchapter pattern on a line of the input.
    So a heading text that matches on many lines or pages yields at most
    one entry; in particular the titles of the front-matter and subchapter
    entries, which are their heading texts, never repeat. *)
Theorem headings_emitted_once (pagesText : list string) :
  NoDup (Toc.seenHeadings (Toc.run pagesText)) /\
  Forall2 (emittedFor pagesText)
    (Toc.seenHeadings (Toc.run pagesText))
    (Toc.processTableOfContents pagesText) /\
  NoDup (map Toc.title
           (filter (fun e => negb (isChapterEntry e))
              (Toc.processTableOfContents pagesText))).
Proof.
  destruct (recordedOnce_run pagesText) as [Hnd Hall].
  repeat split; [exact Hnd | exact Hall |].
  refine (proj1 (distinct_titles (emittedFor pagesText) _ _ _ _ Hall Hnd)).
  intros h e (text & line & _ & _ & He) Hkeep.
  unfold isChapterEntry in Hkeep.
  destruct He as [(_ & Ht & _) | [(Hty & _) | (_ & Ht & _)]];
    [exact Ht | rewrite Hty in Hkeep; discriminate | exact Ht].
Qed.

(** A heading repeated verbatim on two pages gives one entry. *)
Example repeated_heading_one_entry :
  Toc.processTableOfContents
    ["Bab 1" ++ LF ++ "Introduction"; "Bab 1" ++ LF ++ "Introduction"]
  = [ {| Toc.type := Toc.chapter; Toc.title := "Introduction";
         Toc.content := "BAB 1 : Introduction";
         Toc.pageNumber := Toc.PNum 1 |} ].
Proof. reflexivity. Qed.

(** C9. Whatever the pages, when the output has an eleventh front-matter
    entry, its page label is the decimal string "11" (the table of roman
    numerals has ten entries), and its content label ends in it. *)
Theorem eleventh_frontmatter_label (pagesText : list string) (e : Toc.Entry) :
  nth_error (filter isFrontmatterEntry (Toc.processTableOfContents pagesText)) 10
    = Some e ->
  Toc.pageNumber e = Toc.PStr "11" /\
  Toc.content e = Toc.title e ++ " - Halaman 11" /\
  ~ In "11" Toc.romanNumerals.
Proof.
  intros H.
  destruct (romanLabelled_run pagesText) as [_ Hlab].
  destruct (Hlab 10 e H) as [Hp Hc].
  repeat split; [exact Hp | exact Hc |].
  simpl. intros Hin.
  repeat (destruct Hin as [Hin | Hin]; [discriminate Hin|]). exact Hin.
Qed.

Lemma eleventh_frontmatter_label_witness :
  let e := {| Toc.type := Toc.frontmatter; Toc.title := "dAFTAR iSI";
              Toc.content := "dAFTAR iSI - Halaman 11";
              Toc.pageNumber := Toc.PStr "11" |} in
  nth_error (filter isFrontmatterEntry (Toc.processTableOfContents elevenHeadings)) 10
    = Some e /\
  Toc.pageNumber e = Toc.PStr "11" /\
  Toc.content e = Toc.title e ++ " - Halaman 11" /\
  ~ In "11" Toc.romanNumerals.
Proof.
  intros e. split; [reflexivity|].
  apply (eleventh_frontmatter_label elevenHeadings e). reflexivity.
Defined.

(** C4. On the worked example the first chapter entry is emitted when no
    chapter entry precedes it, yet its label is "BAB 2 : Introduction": the
    number is one plus the length of the whole output so far, which counts
    the front-matter entry; the second chapter entry, preceded by one
    chapter entry, is labelled "BAB 4 : Next". *)
Theorem chapter_label_on_example :
  exists e1 e2 e3 e4,
    Toc.processTableOfContents examplePages = [e1; e2; e3; e4] /\
    filter isChapterEntry [e1; e2; e3; e4] = [e2; e4] /\
    Toc.content e2 = "BAB 2 : Introduction" /\
    Toc.content e2 <> "BAB 1 : Introduction" /\
    Toc.content e4 = "BAB 4 : Next" /\
    Toc.content e4 <> "BAB 2 : Next".
Proof.
  do 4 eexists. split; [reflexivity|].
  repeat split; discriminate.
Qed.

(** C5, as stated: on the worked example the output is not the four
    entries of the claim.  The subchapter entry carries page 2 and the
    second chapter entry page 3, and the chapter labels are not "BAB 1"
    and "BAB 2". *)
Lemma example_output_differs :
  ~ (exists e1 e2 e3 e4,
       Toc.processTableOfContents examplePages = [e1; e2; e3; e4] /\
       Toc.type e1 = Toc.frontmatter /\ Toc.title e1 = "Kata Pengantar" /\
       Toc.pageNumber e1 = Toc.PStr "i" /\
       Toc.type e2 = Toc.chapter /\ Toc.content e2 = "BAB 1 : Introduction" /\
       Toc.pageNumber e2 = Toc.PNum 1 /\
       Toc.type e3 = Toc.subchapter /\ Toc.title e3 = "1.1 Overview" /\
       Toc.pageNumber e3 = Toc.PNum 1 /\
       Toc.type e4 = Toc.chapter /\ Toc.content e4 = "BAB 2 : Next" /\
       Toc.pageNumber e4 = Toc.PNum 2).
Proof.
  intros (e1 & e2 & e3 & e4 & Hout & H).
  vm_compute in Hout. injection Hout as <- <- <- <-.
  simpl in H. decompose [and] H. discriminate.
Qed.

(** C5, amended: on the worked example the extractor returns four entries,
    in this order: the front-matter entry "Kata Pengantar" with roman label
    "i"; a chapter entry titled "Introduction" with page number 1; the
    subchapter entry "1.1 Overview" with page number 2; a chapter entry
    titled "Next" with page number 3.  The page counter is 1 on the page of
    "Bab 1" and grows by one with every page from there on. *)
Theorem example_output :
  map (fun e => (Toc.type e, Toc.title e, Toc.pageNumber e))
      (Toc.processTableOfContents examplePages)
  = [ (Toc.frontmatter, "Kata Pengantar", Toc.PStr "i");
      (Toc.chapter, "Introduction", Toc.PNum 1);
      (Toc.subchapter, "1.1 Overview", Toc.PNum 2);
      (Toc.chapter, "Next", Toc.PNum 3) ].
Proof. reflexivity. Qed.

(* ================================================================== *)
(** * Properties of the store *)
(* ================================================================== *)

Section StoreLemmas.

Import Store.

(** ** Lists *)

Lemma filter_all {A} (f : A -> bool) (l : list A) :
  (forall x, In x l -> f x = true) -> filter f l = l.
Proof.
  induction l as [|a l IH]; intros H; simpl; [reflexivity|].
  rewrite (H a (or_introl eq_refl)). f_equal. apply IH.
  intros x Hx. apply H. right. exact Hx.
Qed.

Lemma map_fixed {A} (f : A -> A) (l : list A) :
  (forall x, In x l -> f x = x) -> map f l = l.
Proof.
  induction l as [|a l IH]; intros H; simpl; [reflexivity|].
  rewrite (H a (or_introl eq_refl)). f_equal. apply IH.
  intros x Hx. apply H. right. exact Hx.
Qed.

Lemma Forall2_compose {A} (R : A -> A -> Prop) :
  (forall x y z, R x y -> R y z -> R x z) ->
  forall l1 l2 l3, Forall2 R l1 l2 -> Forall2 R l2 l3 -> Forall2 R l1 l3.
Proof.
  intros Htrans l1 l2 l3 H12. revert l3.
  induction H12 as [|x y l1 l2 Hxy H12 IH]; intros l3 H23;
    inversion H23; subst; constructor; eauto.
Qed.

(** ** The renumbering pass *)

Lemma isChapter_withPageNumber ch n :
  isChapter (withPageNumber ch n) = isChapter ch.
Proof. reflexivity. Qed.

Lemma withPageNumber_same ch n :
  pageNumber ch = Some n -> withPageNumber ch n = ch.
Proof. destruct ch; simpl; intros ->; reflexivity. Qed.

Lemma numberFrom_count l : forall n,
  List.length (filter isChapter (numberFrom n l)) = List.length (filter isChapter l).
Proof.
  induction l as [|ch l IH]; intros n; [reflexivity|].
  cbn [numberFrom filter].
  destruct (isChapter ch) eqn:Hc; cbn [filter].
  - rewrite isChapter_withPageNumber, Hc. cbn [map seq List.length].
    f_equal. apply IH.
  - rewrite Hc. apply IH.
Qed.

Lemma numberFrom_numbers l : forall n,
  map pageNumber (filter isChapter (numberFrom n l))
  = map (fun k => Some (Js.ofNat k)) (seq n (List.length (filter isChapter l))).
Proof.
  induction l as [|ch l IH]; intros n; [reflexivity|].
  cbn [numberFrom filter].
  destruct (isChapter ch) eqn:Hc; cbn [filter].
  - rewrite isChapter_withPageNumber, Hc. cbn [map seq List.length].
    f_equal. apply IH.
  - rewrite Hc. apply IH.
Qed.

Lemma numberChapters_numbered l : numbered (numberChapters l).
Proof.
  unfold numbered, numberChapters.
  rewrite numberFrom_count. apply numberFrom_numbers.
Qed.

Lemma numberFrom_renumbered l : forall n,
  Forall2 renumberedFrom l (numberFrom n l).
Proof.
  induction l as [|ch l IH]; intros n; simpl; [constructor|].
  destruct (isChapter ch) eqn:Hc; constructor; auto; unfold renumberedFrom; rewrite Hc.
  - eexists. reflexivity.
  - reflexivity.
Qed.

Lemma numberFrom_fixed l : forall n,
  map pageNumber (filter isChapter l)
  = map (fun k => Some (Js.ofNat k)) (seq n (List.length (filter isChapter l))) ->
  numberFrom n l = l.
Proof.
  induction l as [|ch l IH]; intros n H; [reflexivity|].
  cbn [numberFrom filter] in *. destruct (isChapter ch) eqn:Hc;
    cbn [map seq List.length] in H.
  - injection H as Hp Hr. rewrite (withPageNumber_same _ _ Hp).
    f_equal. apply IH. exact Hr.
  - f_equal. apply IH. exact H.
Qed.

(** ** An identifier that matches nothing *)

Lemma update_absent i p l :
  (forall c, In c l -> id c <> i) ->
  map (fun ch => if String.eqb (id ch) i then merge ch p else ch) l = l.
Proof.
  intros H. apply map_fixed. intros c Hc.
  destruct (String.eqb_spec (id c) i) as [Heq | _]; [|reflexivity].
  exfalso. exact (H c Hc Heq).
Qed.

Lemma remove_absent i l :
  (forall c, In c l -> id c <> i) ->
  filter (fun ch => negb (String.eqb (id ch) i)) l = l.
Proof.
  intros H. apply filter_all. intros c Hc.
  destruct (String.eqb_spec (id c) i) as [Heq | _]; [|reflexivity].
  exfalso. exact (H c Hc Heq).
Qed.

Lemma removeSub_absent cid sid l :
  (forall c sub, In c l -> id c = cid -> In sub (subChapters c) -> sub_id sub <> sid) ->
  map (fun ch =>
         if String.eqb (id ch) cid
         then withSubChapters ch
                (filter (fun sub => negb (String.eqb (sub_id sub) sid)) (subChapters ch))
         else ch) l = l.
Proof.
  intros H. apply map_fixed. intros c Hc.
  destruct (String.eqb_spec (id c) cid) as [Heq | _]; [|reflexivity].
  rewrite filter_all.
  - destruct c; reflexivity.
  - intros sub Hsub.
    destruct (String.eqb_spec (sub_id sub) sid) as [Hs | _]; [|reflexivity].
    exfalso. exact (H c sub Hc Heq Hsub Hs).
Qed.

(** ** The pagination pass *)

Lemma mapAccum_again {S A} (f : S -> A -> S * A) :
  (forall s a, f s (snd (f s a)) = f s a) ->
  forall l s, mapAccum f s (snd (mapAccum f s l)) = mapAccum f s l.
Proof.
  intros Hf. induction l as [|a l IH]; intros s; simpl; [reflexivity|].
  specialize (Hf s a). destruct (f s a) as [s1 b] eqn:Ef. simpl in Hf.
  specialize (IH s1). destruct (mapAccum f s1 l) as [s2 bs] eqn:El.
  simpl in *. rewrite Hf, IH. reflexivity.
Qed.

Lemma mapAccum_related {S A} (R : A -> A -> Prop) (f : S -> A -> S * A) :
  (forall s a, R a (snd (f s a))) ->
  forall l s, Forall2 R l (snd (mapAccum f s l)).
Proof.
  intros Hf. induction l as [|a l IH]; intros s; simpl; [constructor|].
  specialize (Hf s a). destruct (f s a) as [s1 b].
  specialize (IH s1). destruct (mapAccum f s1 l) as [s2 bs].
  simpl in *. constructor; assumption.
Qed.

Lemma subChapterStep_again cpp isPre c sub :
  subChapterStep cpp isPre c (snd (subChapterStep cpp isPre c sub))
  = subChapterStep cpp isPre c sub.
Proof. reflexivity. Qed.

Lemma chapterStep_again cpp c ch :
  chapterStep cpp c (snd (chapterStep cpp c ch)) = chapterStep cpp c ch.
Proof.
  unfold chapterStep.
  pose proof (mapAccum_again (subChapterStep cpp (isPreContent ch))
                (subChapterStep_again cpp (isPreContent ch))
                (subChapters ch)
                (advance (isPreContent ch) (totalPagesOf cpp ch)
                   (advance (isPreContent ch) 1 c))) as Hsub.
  destruct (mapAccum (subChapterStep cpp (isPreContent ch))
              (advance (isPreContent ch) (totalPagesOf cpp ch)
                 (advance (isPreContent ch) 1 c)) (subChapters ch))
    as [c3 subs] eqn:E.
  simpl in Hsub. cbn [snd]. unfold isPreContent, totalPagesOf in *. cbn [type content images subChapters] in *.
  rewrite Hsub. reflexivity.
Qed.

Lemma chapterStep_kept cpp c ch : chapterKept ch (snd (chapterStep cpp c ch)).
Proof.
  unfold chapterStep.
  pose proof (mapAccum_related subChapterKept
                (subChapterStep cpp (isPreContent ch))
                (fun s a => conj eq_refl (conj eq_refl eq_refl))
                (subChapters ch)
                (advance (isPreContent ch) (totalPagesOf cpp ch)
                   (advance (isPreContent ch) 1 c))) as Hsub.
  destruct (mapAccum (subChapterStep cpp (isPreContent ch)) _ (subChapters ch))
    as [c3 subs].
  simpl in *. unfold chapterKept. simpl. intuition.
Qed.

Lemma calculatePageNumbers_kept st :
  Forall2 chapterKept (chapters st) (chapters (calculatePageNumbers st)).
Proof.
  unfold calculatePageNumbers. simpl.
  apply mapAccum_related. intros s a. apply chapterStep_kept.
Qed.

End StoreLemmas.

Section StoreTheorems.

Import Store.

Lemma chapterKept_refl c : chapterKept c c.
Proof.
  unfold chapterKept. repeat split.
  induction (subChapters c); constructor; [repeat split | assumption].
Qed.

Lemma subChapterKept_trans a b c :
  subChapterKept a b -> subChapterKept b c -> subChapterKept a c.
Proof. unfold subChapterKept. intuition congruence. Qed.

Lemma chapterKept_trans a b c :
  chapterKept a b -> chapterKept b c -> chapterKept a c.
Proof.
  unfold chapterKept.
  intros (?&?&?&?&?&?&?&Hab) (?&?&?&?&?&?&?&Hbc).
  repeat split; try congruence.
  exact (Forall2_compose _ subChapterKept_trans _ _ _ Hab Hbc).
Qed.

Lemma numberAll_kept l : forall n, Forall2 chapterKept l (numberAll n l).
Proof.
  induction l as [|ch l IH]; intros n; simpl; constructor; auto.
  apply (chapterKept_refl (withPageNumber ch (Js.ofNat n))).
Qed.

Lemma Forall2_refl_kept l : Forall2 chapterKept l l.
Proof. induction l; constructor; auto using chapterKept_refl. Qed.

(** A segment keeps the type of the entries it comes from. *)
Lemma kept_type (f : Chapter -> bool) (t : ChapterType) l seg :
  (forall c, f c = true -> type c = t) ->
  Forall2 chapterKept (filter f l) seg ->
  Forall (fun c => type c = t) seg.
Proof.
  intros Hf H.
  assert (Hsrc : Forall (fun c => type c = t) (filter f l)).
  { apply Forall_forall. intros c Hc. apply filter_In in Hc. apply Hf, Hc. }
  induction H as [|c c' l1 l2 Hk H IH]; constructor.
  - inversion Hsrc; subst. destruct Hk as (_&_&_&_&Ht&_). congruence.
  - apply IH. inversion Hsrc; assumption.
Qed.

End StoreTheorems.

(** C1. Whatever list is passed to [reorderChapters], however its types
    are interleaved, the stored list afterwards is four consecutive
    segments: entries of type frontmatter, then toc, then chapter, then
    backmatter; each segment holds the entries of that type of the input,
    in their order in the input, with every field but the page numbers
    unchanged. *)
Theorem reorderChapters_segments (l : list Store.Chapter) (state : Store.EbookStore) :
  exists fm tc mn bm,
    Store.chapters (Store.reorderChapters l state) = (fm ++ tc ++ mn ++ bm)%list /\
    Forall (fun c => Store.type c = Store.frontmatter) fm /\
    Forall (fun c => Store.type c = Store.toc) tc /\
    Forall (fun c => Store.type c = Store.chapter) mn /\
    Forall (fun c => Store.type c = Store.backmatter) bm /\
    Forall2 chapterKept (filter Store.isFrontmatter l) fm /\
    Forall2 chapterKept (filter Store.isToc l) tc /\
    Forall2 chapterKept (filter Store.isChapter l) mn /\
    Forall2 chapterKept (filter Store.isBackmatter l) bm.
Proof.
  assert (H : Forall2 chapterKept (Store.orderedChaptersOf l)
                 (Store.chapters (Store.reorderChapters l state))).
  { exact (calculatePageNumbers_kept
             {| Store.chapters := Store.orderedChaptersOf l;
                Store.settings := Store.settings state |}). }
  unfold Store.orderedChaptersOf in H.
  apply Forall2_app_inv_l in H. destruct H as (fm & r1 & Hfm & H & E1).
  apply Forall2_app_inv_l in H. destruct H as (tc & r2 & Htc & H & E2).
  apply Forall2_app_inv_l in H. destruct H as (mn & bm & Hmn & Hbm & E3).
  assert (Hmn' : Forall2 chapterKept (filter Store.isChapter l) mn).
  { exact (Forall2_compose _ chapterKept_trans _ _ _ (numberAll_kept _ 1) Hmn). }
  exists fm, tc, mn, bm. subst r2 r1.
  split; [exact E1|].
  split; [apply (kept_type Store.isFrontmatter Store.frontmatter l); auto;
          intros c; unfold Store.isFrontmatter; destruct (Store.type c); congruence|].
  split; [apply (kept_type Store.isToc Store.toc l); auto;
          intros c; unfold Store.isToc; destruct (Store.type c); congruence|].
  split; [apply (kept_type Store.isChapter Store.chapter l); auto;
          intros c; unfold Store.isChapter; destruct (Store.type c); congruence|].
  split; [apply (kept_type Store.isBackmatter Store.backmatter l); auto;
          intros c; unfold Store.isBackmatter; destruct (Store.type c); congruence|].
  auto.
Qed.

(** C2. After every non-empty sequence of [addChapter], [updateChapter]
    and [removeChapter] operations, from any state, the entries of type
    chapter carry the page numbers 1, 2, ..., K in list order: the i-th of
    them has page number i. *)
Theorem chapters_numbered_after_each_operation
    (state : Store.EbookStore) (ops : list Op) (op : Op) :
  numbered (Store.chapters (fold_left applyOp (ops ++ [op]) state)).
Proof.
  rewrite fold_left_app. simpl.
  destruct op; apply numberChapters_numbered.
Qed.

(** C6. Running [calculatePageNumbers] on its own result gives that result
    again: the second run leaves every page number, of every chapter and
    every subchapter, as the first run set it. *)
Theorem calculatePageNumbers_idempotent (state : Store.EbookStore) :
  Store.calculatePageNumbers (Store.calculatePageNumbers state)
  = Store.calculatePageNumbers state.
Proof.
  unfold Store.calculatePageNumbers. cbn [Store.chapters Store.settings].
  f_equal. f_equal. apply mapAccum_again. apply chapterStep_again.
Qed.

(** C10. [calculatePageNumbers] keeps the settings, the length and order
    of the chapter list, every field of every chapter but [pageNumber], and
    the number, order and every field but [pageNumber] of its
    subchapters. *)
Theorem calculatePageNumbers_frame (state : Store.EbookStore) :
  Store.settings (Store.calculatePageNumbers state) = Store.settings state /\
  List.length (Store.chapters (Store.calculatePageNumbers state))
  = List.length (Store.chapters state) /\
  Forall2 chapterKept (Store.chapters state)
    (Store.chapters (Store.calculatePageNumbers state)).
Proof.
  pose proof (calculatePageNumbers_kept state) as H.
  split; [reflexivity|]. split; [|exact H].
  symmetry. exact (Forall2_length H).
Qed.

Section Pagination.

Import Store.

Lemma chapterStep_pageNumber cpp c ch :
  pageNumber (snd (chapterStep cpp c ch)) = Some (current (isPreContent ch) c).
Proof.
  unfold chapterStep.
  destruct (mapAccum (subChapterStep cpp (isPreContent ch)) _ (subChapters ch)).
  reflexivity.
Qed.

Lemma first_pageNumber cpp c ch rest :
  option_map pageNumber (hd_error (snd (mapAccum (chapterStep cpp) c (ch :: rest))))
  = Some (Some (current (isPreContent ch) c)).
Proof.
  simpl. pose proof (chapterStep_pageNumber cpp c ch) as H.
  destruct (chapterStep cpp c ch) as [c1 b].
  destruct (mapAccum (chapterStep cpp) c1 rest). simpl in *. rewrite H. reflexivity.
Qed.

End Pagination.

(** C3, as stated: an identifier that matches nothing does not leave the
    state unchanged.  [oneChapterPaged] holds one chapter, on page 2 as
    [reorderChapters] left it; [updateChapter] and [removeChapter] with the
    unknown identifier "none" number it 1.  [oneChapter] holds one chapter
    numbered 1; [removeSubChapter] with unknown identifiers puts it on
    page 2. *)
Lemma absent_id_changes_state :
  (forall c, In c (Store.chapters oneChapterPaged) -> Store.id c <> "none") /\
  (forall c, In c (Store.chapters oneChapter) -> Store.id c <> "none") /\
  pagesAre [2%float] oneChapterPaged = true /\
  pagesAre [1%float] (Store.updateChapter "none" emptyPartial oneChapterPaged) = true /\
  pagesAre [1%float] (Store.removeChapter "none" oneChapterPaged) = true /\
  pagesAre [1%float] oneChapter = true /\
  pagesAre [2%float] (Store.removeSubChapter "none" "none" oneChapter) = true /\
  Store.updateChapter "none" emptyPartial oneChapterPaged <> oneChapterPaged /\
  Store.removeChapter "none" oneChapterPaged <> oneChapterPaged /\
  Store.removeSubChapter "none" "none" oneChapter <> oneChapter.
Proof.
  split; [intros c [<- | []]; discriminate|].
  split; [intros c [<- | []]; discriminate|].
  repeat split; try reflexivity;
    intros H; apply (f_equal (pagesAre [1%float])) in H;
    vm_compute in H; discriminate H.
Qed.

(** C3, amended: with an identifier that matches no stored chapter,
    [updateChapter] and [removeChapter] give the same state, which keeps
    the settings, the list and every entry of another type than chapter,
    and differs at most in the [pageNumber] of the entries of type chapter,
    which are numbered 1..K; the state is unchanged when they were so
    numbered before.  [removeSubChapter] with a chapter or subchapter
    identifier that matches nothing gives the state that
    [calculatePageNumbers] gives: the settings and every field but the
    page numbers are kept.  No operation fails. *)
Theorem absent_id_only_renumbers
    (state : Store.EbookStore) (i : string) (p : Store.PartialChapter)
    (chapterId subChapterId : string) :
  (forall c, In c (Store.chapters state) -> Store.id c <> i) ->
  (forall c sub, In c (Store.chapters state) -> Store.id c = chapterId ->
                 In sub (Store.subChapters c) -> Store.sub_id sub <> subChapterId) ->
  (Store.settings (Store.updateChapter i p state) = Store.settings state /\
   Forall2 renumberedFrom (Store.chapters state)
     (Store.chapters (Store.updateChapter i p state)) /\
   numbered (Store.chapters (Store.updateChapter i p state))) /\
  Store.removeChapter i state = Store.updateChapter i p state /\
  (numbered (Store.chapters state) -> Store.updateChapter i p state = state) /\
  Store.removeSubChapter chapterId subChapterId state
  = Store.calculatePageNumbers state /\
  Store.settings (Store.removeSubChapter chapterId subChapterId state)
  = Store.settings state /\
  Forall2 chapterKept (Store.chapters state)
    (Store.chapters (Store.removeSubChapter chapterId subChapterId state)).
Proof.
  intros Hid Hsub.
  assert (Hup : Store.updateChapter i p state
                = {| Store.chapters := Store.numberChapters (Store.chapters state);
                     Store.settings := Store.settings state |}).
  { unfold Store.updateChapter. rewrite update_absent by exact Hid. reflexivity. }
  assert (Hrm : Store.removeChapter i state
                = {| Store.chapters := Store.numberChapters (Store.chapters state);
                     Store.settings := Store.settings state |}).
  { unfold Store.removeChapter. rewrite remove_absent by exact Hid. reflexivity. }
  assert (Hrs : Store.removeSubChapter chapterId subChapterId state
                = Store.calculatePageNumbers state).
  { unfold Store.removeSubChapter. rewrite removeSub_absent by exact Hsub.
    destruct state; reflexivity. }
  rewrite Hup, Hrm, Hrs. cbn [Store.chapters Store.settings].
  split; [split; [reflexivity|split]|].
  - apply numberFrom_renumbered.
  - apply numberChapters_numbered.
  - split; [reflexivity|]. split.
    + intros Hnum. unfold Store.numberChapters.
      rewrite numberFrom_fixed by exact Hnum. destruct state; reflexivity.
    + split; [reflexivity|]. split; [reflexivity|].
      apply calculatePageNumbers_kept.
Qed.

Lemma absent_id_only_renumbers_witness :
  Store.updateChapter "none" emptyPartial oneChapter = oneChapter /\
  Store.removeChapter "none" withSection
  = Store.updateChapter "none" emptyPartial withSection /\
  Store.removeSubChapter "c1" "none" withSection
  = Store.calculatePageNumbers withSection.
Proof.
  assert (H1 : forall c, In c (Store.chapters oneChapter) -> Store.id c <> "none").
  { intros c [<- | []]. discriminate. }
  assert (H2 : forall c sub, In c (Store.chapters oneChapter) -> Store.id c = "none" ->
                 In sub (Store.subChapters c) -> Store.sub_id sub <> "none").
  { intros c sub [<- | []] _ []. }
  assert (H3 : forall c, In c (Store.chapters withSection) -> Store.id c <> "none").
  { intros c [<- | []]. discriminate. }
  assert (H4 : forall c sub, In c (Store.chapters withSection) -> Store.id c = "c1" ->
                 In sub (Store.subChapters c) -> Store.sub_id sub <> "none").
  { intros c sub [<- | []] _ [<- | []]. discriminate. }
  split.
  - apply (absent_id_only_renumbers oneChapter "none" emptyPartial "none" "none" H1 H2).
    reflexivity.
  - split; apply (absent_id_only_renumbers withSection "none" emptyPartial "c1" "none" H3 H4).
Defined.

(** C8, as stated: with a cover image the roman counter is not advanced.
    It starts the pass at 1, so the front-matter entry of
    [coverAndPreface] is on page 1, not 2. *)
Lemma cover_leaves_roman_counter :
  Store.hasCover coverSettings = true /\
  PrimFloat.eqb (Store.romanPageCount (Store.initialCounters coverSettings)) 1 = true /\
  Store.romanPageCount (Store.initialCounters coverSettings) <> 2%float /\
  pagesAre [1%float] (Store.calculatePageNumbers coverAndPreface) = true /\
  pagesAre [2%float] (Store.calculatePageNumbers coverAndPreface) = false.
Proof.
  repeat split; try reflexivity.
  intros H. apply (f_equal (fun x => PrimFloat.eqb x 1)) in H.
  vm_compute in H. discriminate H.
Qed.

(** C8, amended: the roman counter starts the pass over the chapters at 1
    whether or not there is a cover image; the arabic counter starts it at
    3 with a cover image (one for the cover, one for the title page) and
    at 2 without.  So the first entry of the list is on page 1 when it is
    a frontmatter or toc entry, and on page 3 or 2 otherwise. *)
Theorem initial_page_counters (s : Store.EbookSettings) :
  Store.romanPageCount (Store.initialCounters s) = 1%float /\
  Store.arabicPageCount (Store.initialCounters s)
  = (if Store.hasCover s then 3%float else 2%float) /\
  forall c rest,
    option_map Store.pageNumber
      (hd_error (Store.chapters
                   (Store.calculatePageNumbers
                      {| Store.chapters := c :: rest; Store.settings := s |})))
    = Some (Some (if Store.isPreContent c then 1%float
                  else if Store.hasCover s then 3%float else 2%float)).
Proof.
  assert (Ha : Store.arabicPageCount (Store.initialCounters s)
               = (if Store.hasCover s then 3%float else 2%float)).
  { unfold Store.initialCounters. destruct (Store.hasCover s); reflexivity. }
  split; [reflexivity|]. split; [exact Ha|].
  intros c rest. unfold Store.calculatePageNumbers.
  cbn [Store.chapters Store.settings].
  rewrite first_pageNumber. unfold Store.current.
  destruct (Store.isPreContent c); [reflexivity | rewrite Ha; reflexivity].
Qed.

(* ================================================================== *)
(** * Worked examples *)
(* ================================================================== *)

(** The leftmost match of the chapter pattern runs to the end of the line,
    in the case of the text; the subchapter pattern starts at the first
    run of digits that a dot and a digit follow. *)
Example babMatch_example :
  Toc.babMatch "see bAb 12: foo bar  " = Some "bAb 12: foo bar  " /\
  Js.trim "bAb 12: foo bar  " = "bAb 12: foo bar" /\
  Toc.subbabMatch "in 1a2.34 foo" = Some "2.34 foo" /\
  Toc.babMatch "Bab one" = None /\
  Toc.testBab1 ("intro" ++ LF ++ "see BAB 10") = true.
Proof. repeat split; reflexivity. Qed.

(** A line that holds both a chapter and a subchapter heading gives two
    entries, for two different heading texts. *)
Example one_line_two_headings :
  map (fun e => (Toc.type e, Toc.title e, Toc.content e))
      (Toc.processTableOfContents ["Bab 1.1 Scope" ++ LF ++ "Aims"])
  = [ (Toc.chapter, "Aims", "BAB 1 : Aims");
      (Toc.subchapter, "1.1 Scope", "1.1 Scope - Halaman 1") ].
Proof. reflexivity. Qed.

(** With the default settings a page holds 37 * 38 characters. *)
Example charsPerPage_default :
  Store.charsPerPageOf Store.defaultSettings = 1406%float.
Proof. reflexivity. Qed.

(** A chapter without content and images takes one page. *)
Example empty_chapter_one_page :
  Store.totalPagesOf 1406 (Store.newChapterOf "c" emptyPartial) = 1%float.
Proof. reflexivity. Qed.

(** [addChapter({type:'backmatter'})] on a store with one front-matter
    entry and two chapters appends after both chapters, and the chapters
    are numbered 1 and 2. *)
Example backmatter_is_appended :
  let st :=
    fold_left applyOp
      [ Add "a" emptyPartial;
        Add "f" (partialOfType Store.frontmatter);
        Add "b" emptyPartial;
        Add "z" (partialOfType Store.backmatter) ]
      Store.initialStore in
  map Store.id (Store.chapters st) = ["f"; "a"; "b"; "z"] /\
  map Store.type (Store.chapters st)
  = [Store.frontmatter; Store.chapter; Store.chapter; Store.backmatter] /\
  map Store.pageNumber (Store.chapters st)
  = [None; Some 1%float; Some 2%float; None].
Proof. repeat split; reflexivity. Qed.

(** [reorderChapters] on an interleaved list: the segments come out in the
    fixed order, and the pagination pass puts the front-matter entry on
    roman page 1 and the chapters on pages 2 and 4. *)
Example reorder_interleaved :
  let st :=
    fold_left applyOp
      [ Add "a" emptyPartial;
        Add "f" (partialOfType Store.frontmatter);
        Add "b" emptyPartial ]
      Store.initialStore in
  let st' := Store.reorderChapters (rev (Store.chapters st)) st in
  map Store.id (Store.chapters st') = ["f"; "b"; "a"] /\
  pagesAre [1%float; 2%float; 4%float] st' = true.
Proof. repeat split; reflexivity. Qed.

(* ================================================================== *)
(** * Further properties of the store *)
(* ================================================================== *)

Section Renumbering.

Import Store.

Lemma renumberedFrom_id c c' : renumberedFrom c c' -> id c' = id c.
Proof.
  unfold renumberedFrom. destruct (isChapter c); [intros [n ->] | intros ->];
    reflexivity.
Qed.

Lemma renumberedFrom_type c c' : renumberedFrom c c' -> type c' = type c.
Proof.
  unfold renumberedFrom. destruct (isChapter c); [intros [n ->] | intros ->];
    reflexivity.
Qed.

Lemma numberFrom_of_renumbered l l' :
  Forall2 renumberedFrom l l' -> forall n, numberFrom n l' = numberFrom n l.
Proof.
  induction 1 as [|c c' l l' Hc Hl IH]; intros n; [reflexivity|].
  cbn [numberFrom]. unfold renumberedFrom in Hc.
  destruct (isChapter c) eqn:Ec.
  - destruct Hc as [x ->]. rewrite isChapter_withPageNumber, Ec.
    rewrite IH. reflexivity.
  - subst c'. rewrite Ec, IH. reflexivity.
Qed.

Lemma filter_renumbered (keep : Chapter -> bool) l l' :
  (forall c c', renumberedFrom c c' -> keep c' = keep c) ->
  Forall2 renumberedFrom l l' ->
  Forall2 renumberedFrom (filter keep l) (filter keep l').
Proof.
  intros Hkeep. induction 1 as [|c c' l l' Hc Hl IH]; simpl; [constructor|].
  rewrite (Hkeep c c' Hc). destruct (keep c); [constructor|]; assumption.
Qed.

Lemma keeps_other_ids i c c' :
  renumberedFrom c c' ->
  negb (String.eqb (id c') i) = negb (String.eqb (id c) i).
Proof. intros H. rewrite (renumberedFrom_id c c' H). reflexivity. Qed.

(** Renumbering what is left of a renumbered list after entries were
    removed by identifier is renumbering what is left of the list. *)
Lemma number_filter_number i l n m :
  numberFrom n (filter (fun ch => negb (String.eqb (id ch) i)) (numberFrom m l))
  = numberFrom n (filter (fun ch => negb (String.eqb (id ch) i)) l).
Proof.
  apply numberFrom_of_renumbered. apply filter_renumbered.
  - intros c c'. apply keeps_other_ids.
  - apply numberFrom_renumbered.
Qed.

Lemma filter_twice {A} (f : A -> bool) (l : list A) :
  filter f (filter f l) = filter f l.
Proof.
  apply filter_all. intros x Hx. apply filter_In in Hx. apply Hx.
Qed.

Lemma Forall2_Forall_r {A B} (R : A -> B -> Prop) (P : B -> Prop) l l' :
  (forall a b, In a l -> R a b -> P b) -> Forall2 R l l' -> Forall P l'.
Proof.
  intros H F. induction F as [|a b l l' Hab F IH]; constructor.
  - apply (H a b); [left; reflexivity | exact Hab].
  - apply IH. intros x y Hx. apply H. right. exact Hx.
Qed.

(** ** [merge] *)

Lemma merge_twice c p : merge (merge c p) p = merge c p.
Proof.
  unfold merge. cbn [id title content images type indentation lineSpacing
                     pageNumber subChapters].
  destruct p as [pi pt pc pim pty pin pl pp ps]. simpl.
  destruct pi, pt, pc, pim, pty, pin, pl, pp, ps; reflexivity.
Qed.

Lemma merge_numbered c p n :
  exists m, merge (withPageNumber (merge c p) n) p = withPageNumber (merge c p) m.
Proof.
  destruct p as [pi pt pc pim pty pin pl pp ps].
  destruct pp as [x|]; [exists x | exists n];
    unfold merge, withPageNumber; simpl;
    destruct pi, pt, pc, pim, pty, pin, pl, ps; reflexivity.
Qed.

(** The callback of the [map] of [updateChapter], applied to an entry that
    it has produced and that the renumbering pass may have numbered, gives
    that entry again, up to the number. *)
Lemma update_again i p c0 c' :
  let upd := fun ch => if String.eqb (id ch) i then merge ch p else ch in
  renumberedFrom (upd c0) c' -> renumberedFrom (upd c0) (upd c').
Proof.
  intros upd H.
  assert (Hupd : upd (upd c0) = upd c0).
  { unfold upd. destruct (String.eqb (id c0) i) eqn:E0.
    - destruct (String.eqb (id (merge c0 p)) i); [apply merge_twice | reflexivity].
    - rewrite E0. reflexivity. }
  unfold renumberedFrom in *. destruct (isChapter (upd c0)) eqn:Ec.
  - destruct H as [n ->].
    unfold upd at 1. cbn [id withPageNumber].
    destruct (String.eqb (id (upd c0)) i) eqn:E1; [|eexists; reflexivity].
    unfold upd in *. destruct (String.eqb (id c0) i) eqn:E0.
    + apply merge_numbered.
    + rewrite E0 in E1. discriminate.
  - subst c'. exact Hupd.
Qed.

End Renumbering.

(** X1. Adding a chapter under a fresh identifier and removing it again
    gives the list renumbered, with the settings as they were; when the
    chapters were numbered 1..K before, the state is exactly the one before
    the two operations. *)
Theorem add_then_remove
    (state : Store.EbookStore) (newId : string) (p : Store.PartialChapter) :
  (forall c, In c (Store.chapters state) -> Store.id c <> newId) ->
  Store.removeChapter newId (Store.addChapter newId p state)
  = {| Store.chapters := Store.numberChapters (Store.chapters state);
       Store.settings := Store.settings state |} /\
  (numbered (Store.chapters state) ->
   Store.removeChapter newId (Store.addChapter newId p state) = state).
Proof.
  intros Hfresh.
  assert (H : Store.removeChapter newId (Store.addChapter newId p state)
              = {| Store.chapters := Store.numberChapters (Store.chapters state);
                   Store.settings := Store.settings state |}).
  { unfold Store.removeChapter, Store.addChapter.
    cbn [Store.chapters Store.settings]. f_equal.
    unfold Store.numberChapters. rewrite number_filter_number.
    f_equal. unfold Store.splice_insert.
    rewrite filter_app. cbn [filter Store.newChapterOf Store.id].
    rewrite String.eqb_refl. cbn [negb].
    rewrite <- filter_app, firstn_skipn.
    apply remove_absent. exact Hfresh. }
  split; [exact H|].
  intros Hnum. rewrite H. unfold Store.numberChapters.
  rewrite numberFrom_fixed by exact Hnum. destruct state; reflexivity.
Qed.

Lemma add_then_remove_witness :
  Store.removeChapter "x" (Store.addChapter "x" (partialOfType Store.toc) oneChapter)
  = oneChapter.
Proof.
  assert (H : forall c, In c (Store.chapters oneChapter) -> Store.id c <> "x").
  { intros c [<- | []]. discriminate. }
  apply (add_then_remove oneChapter "x" (partialOfType Store.toc) H).
  reflexivity.
Defined.

(** X2. [updateChapter] is idempotent: applying the same update a second
    time changes nothing, whatever fields the partial carries (a new
    identifier or type included). *)
Theorem updateChapter_idempotent
    (state : Store.EbookStore) (i : string) (p : Store.PartialChapter) :
  Store.updateChapter i p (Store.updateChapter i p state)
  = Store.updateChapter i p state.
Proof.
  unfold Store.updateChapter. cbn [Store.chapters Store.settings]. f_equal.
  unfold Store.numberChapters.
  apply numberFrom_of_renumbered.
  set (upd := fun ch => if String.eqb (Store.id ch) i then Store.merge ch p else ch).
  pose proof (numberFrom_renumbered (map upd (Store.chapters state)) 1) as H.
  remember (Store.numberFrom 1 (map upd (Store.chapters state))) as l2 eqn:E.
  clear E. revert l2 H.
  induction (Store.chapters state) as [|c0 l IH]; intros l2 H;
    inversion H; subst; simpl; constructor.
  - apply update_again. assumption.
  - apply IH. assumption.
Qed.

(** X3. After [removeChapter i] no entry carries the identifier [i], and
    removing [i] once more changes nothing. *)
Theorem removeChapter_removes (state : Store.EbookStore) (i : string) :
  Forall (fun c => Store.id c <> i) (Store.chapters (Store.removeChapter i state)) /\
  Store.removeChapter i (Store.removeChapter i state) = Store.removeChapter i state.
Proof.
  split.
  - unfold Store.removeChapter. cbn [Store.chapters].
    refine (Forall2_Forall_r renumberedFrom _ _ _ _
              (numberFrom_renumbered _ 1)).
    intros a b Ha Hab. rewrite (renumberedFrom_id a b Hab).
    apply filter_In in Ha. destruct Ha as [_ Ha].
    destruct (String.eqb_spec (Store.id a) i); [discriminate | assumption].
  - unfold Store.removeChapter. cbn [Store.chapters Store.settings]. f_equal.
    unfold Store.numberChapters. rewrite number_filter_number.
    rewrite filter_twice. reflexivity.
Qed.

Section Segments.

Import Store.
Local Open Scope list_scope.

Lemma countWhile_app p a b :
  Forall (fun c => p c = true) a ->
  countWhile p (a ++ b) = List.length a + countWhile p b.
Proof.
  induction 1 as [|c a Hc Ha IH]; simpl; [reflexivity|].
  rewrite Hc, IH. reflexivity.
Qed.

Lemma countWhile_none p l :
  Forall (fun c => p c = false) l -> countWhile p l = 0.
Proof. destruct 1 as [|c l Hc _]; simpl; [|rewrite Hc]; reflexivity. Qed.

Lemma Forall_weaken (P Q : Chapter -> Prop) l :
  (forall c, P c -> Q c) -> Forall P l -> Forall Q l.
Proof. intros H F. induction F; constructor; auto. Qed.

Lemma chapter_not_pre c : isChapter c = true -> isPreContent c = false.
Proof. unfold isChapter, isPreContent. destruct (type c); congruence. Qed.

Lemma backmatter_not_pre c : isBackmatter c = true -> isPreContent c = false.
Proof. unfold isBackmatter, isPreContent. destruct (type c); congruence. Qed.

Lemma backmatter_not_chapter c : isBackmatter c = true -> isChapter c = false.
Proof. unfold isBackmatter, isChapter. destruct (type c); congruence. Qed.

Lemma firstn_length_app {A} (a b : list A) : firstn (List.length a) (a ++ b) = a.
Proof. induction a; simpl; [destruct b | f_equal]; auto. Qed.

Lemma skipn_length_app {A} (a b : list A) : skipn (List.length a) (a ++ b) = b.
Proof. induction a; simpl; auto. Qed.

(** Where the two loops of [addChapter] stop on a segmented list. *)
Lemma skip_pre pre mn bm :
  Forall (fun c => isPreContent c = true) pre ->
  Forall (fun c => isChapter c = true) mn ->
  Forall (fun c => isBackmatter c = true) bm ->
  skipWhile isPreContent (pre ++ mn ++ bm) 0 = List.length pre.
Proof.
  intros Hp Hm Hb. unfold skipWhile. cbn [skipn Nat.add].
  rewrite countWhile_app by exact Hp.
  rewrite countWhile_none; [lia|].
  apply Forall_app. split.
  - exact (Forall_weaken _ _ _ chapter_not_pre Hm).
  - exact (Forall_weaken _ _ _ backmatter_not_pre Hb).
Qed.

Lemma skip_chapters pre mn bm :
  Forall (fun c => isChapter c = true) mn ->
  Forall (fun c => isBackmatter c = true) bm ->
  skipWhile isChapter (pre ++ mn ++ bm) (List.length pre)
  = List.length pre + List.length mn.
Proof.
  intros Hm Hb. unfold skipWhile. rewrite skipn_length_app.
  rewrite countWhile_app by exact Hm.
  rewrite countWhile_none; [lia|].
  exact (Forall_weaken _ _ _ backmatter_not_chapter Hb).
Qed.

Lemma segmented_renumbered l l' :
  Forall2 renumberedFrom l l' -> segmented l -> segmented l'.
Proof.
  intros H (pre & mn & bm & -> & Hp & Hm & Hb).
  apply Forall2_app_inv_l in H. destruct H as (pre' & r & Fp & H & ->).
  apply Forall2_app_inv_l in H. destruct H as (mn' & bm' & Fm & Fb & ->).
  exists pre', mn', bm'. split; [reflexivity|].
  repeat split.
  - refine (Forall2_Forall_r _ _ _ _ _ Fp). intros a b Ha Hab.
    rewrite Forall_forall in Hp. specialize (Hp a Ha).
    unfold isPreContent in *. rewrite (renumberedFrom_type a b Hab). exact Hp.
  - refine (Forall2_Forall_r _ _ _ _ _ Fm). intros a b Ha Hab.
    rewrite Forall_forall in Hm. specialize (Hm a Ha).
    unfold isChapter in *. rewrite (renumberedFrom_type a b Hab). exact Hm.
  - refine (Forall2_Forall_r _ _ _ _ _ Fb). intros a b Ha Hab.
    rewrite Forall_forall in Hb. specialize (Hb a Ha).
    unfold isBackmatter in *. rewrite (renumberedFrom_type a b Hab). exact Hb.
Qed.

Lemma Forall_snoc (P : Chapter -> Prop) l x :
  Forall P l -> P x -> Forall P (l ++ [x]).
Proof. intros. apply Forall_app. split; [assumption | constructor; auto]. Qed.

Lemma splice_segmented l x :
  segmented l -> segmented (splice_insert l (insertIndexOf x l) x).
Proof.
  intros (pre & mn & bm & -> & Hp & Hm & Hb).
  unfold insertIndexOf, splice_insert.
  destruct (type x) eqn:Ex.
  - rewrite skip_pre by assumption.
    rewrite firstn_length_app, skipn_length_app.
    exists (pre ++ [x]), mn, bm. rewrite <- app_assoc. split; [reflexivity|].
    repeat split; try assumption.
    apply Forall_snoc; [assumption | unfold isPreContent; rewrite Ex; reflexivity].
  - rewrite skip_pre by assumption.
    rewrite firstn_length_app, skipn_length_app.
    exists (pre ++ [x]), mn, bm. rewrite <- app_assoc. split; [reflexivity|].
    repeat split; try assumption.
    apply Forall_snoc; [assumption | unfold isPreContent; rewrite Ex; reflexivity].
  - rewrite skip_pre by assumption. rewrite skip_chapters by assumption.
    rewrite <- length_app.
    rewrite (app_assoc pre mn bm), firstn_length_app, skipn_length_app.
    exists pre, (mn ++ [x]), bm. rewrite <- !app_assoc. split; [reflexivity|].
    repeat split; try assumption.
    apply Forall_snoc; [assumption | unfold isChapter; rewrite Ex; reflexivity].
  - rewrite firstn_all, skipn_all.
    exists pre, mn, (bm ++ [x]). rewrite <- !app_assoc. split; [reflexivity|].
    repeat split; try assumption.
    apply Forall_snoc; [assumption | unfold isBackmatter; rewrite Ex; reflexivity].
Qed.

Lemma numberFrom_snoc_other l x : forall n,
  isChapter x = false -> numberFrom n (l ++ [x]) = numberFrom n l ++ [x].
Proof.
  induction l as [|c l IH]; intros n Hx; simpl.
  - rewrite Hx. reflexivity.
  - destruct (isChapter c); rewrite IH by exact Hx; reflexivity.
Qed.

Lemma numberFrom_ids l : forall n, map id (numberFrom n l) = map id l.
Proof.
  induction l as [|c l IH]; intros n; simpl; [reflexivity|].
  destruct (isChapter c); simpl; rewrite IH; reflexivity.
Qed.

Lemma numberFrom_length l : forall n, List.length (numberFrom n l) = List.length l.
Proof.
  induction l as [|c l IH]; intros n; simpl; [reflexivity|].
  destruct (isChapter c); simpl; rewrite IH; reflexivity.
Qed.

End Segments.

(** X4. [addChapter] keeps the list in three segments: when the frontmatter
    and toc entries come first, the chapters next and the backmatter
    entries last, they still do after a chapter of any type was added. *)
Theorem addChapter_keeps_segments
    (state : Store.EbookStore) (newId : string) (p : Store.PartialChapter) :
  segmented (Store.chapters state) ->
  segmented (Store.chapters (Store.addChapter newId p state)).
Proof.
  intros H. unfold Store.addChapter. cbn [Store.chapters].
  refine (segmented_renumbered _ _ (numberFrom_renumbered _ 1) _).
  apply splice_segmented. exact H.
Qed.

Lemma addChapter_keeps_segments_witness :
  segmented (Store.chapters (Store.addChapter "t2" (partialOfType Store.toc) oneChapter)).
Proof.
  apply (addChapter_keeps_segments oneChapter "t2" (partialOfType Store.toc)).
  exists nil, (Store.chapters oneChapter), nil.
  split; [reflexivity|]. repeat constructor.
Defined.

(** The frontmatter and toc entries are one segment for [addChapter]: a
    frontmatter entry added to a list that holds a toc entry comes after
    it. *)
Example frontmatter_after_toc :
  map Store.type
    (Store.chapters (Store.addChapter "f1" (partialOfType Store.frontmatter) tocOnly))
  = [Store.toc; Store.frontmatter].
Proof. reflexivity. Qed.

(** X5. A backmatter entry is appended at the end, whatever the list
    holds: the result is the old list, renumbered, followed by the new
    entry, which carries no page number. *)
Theorem addChapter_backmatter_last
    (state : Store.EbookStore) (newId : string) (p : Store.PartialChapter) :
  Store.p_type p = Some Store.backmatter ->
  Store.chapters (Store.addChapter newId p state)
  = (Store.numberChapters (Store.chapters state) ++ [Store.newChapterOf newId p])%list /\
  Store.pageNumber (Store.newChapterOf newId p) = None.
Proof.
  intros Hp. split; [|reflexivity].
  assert (Ht : Store.type (Store.newChapterOf newId p) = Store.backmatter).
  { unfold Store.newChapterOf. cbn [Store.type]. rewrite Hp. reflexivity. }
  unfold Store.addChapter, Store.insertIndexOf, Store.splice_insert.
  cbn [Store.chapters]. rewrite Ht, firstn_all, skipn_all.
  unfold Store.numberChapters. apply numberFrom_snoc_other.
  unfold Store.isChapter. rewrite Ht. reflexivity.
Qed.

Lemma addChapter_backmatter_last_witness :
  Store.chapters (Store.addChapter "z" (partialOfType Store.backmatter) oneChapterPaged)
  = (Store.numberChapters (Store.chapters oneChapterPaged)
     ++ [Store.newChapterOf "z" (partialOfType Store.backmatter)])%list /\
  Store.pageNumber (Store.newChapterOf "z" (partialOfType Store.backmatter)) = None.
Proof.
  apply (addChapter_backmatter_last oneChapterPaged "z" (partialOfType Store.backmatter)).
  reflexivity.
Defined.

(** X6. [updateChapter] never moves, drops or adds an entry: the list keeps
    its length, and the identifiers are those of before, in the same order,
    but for the entries that matched, which carry the identifier of the
    partial when it has one. *)
Theorem updateChapter_keeps_places
    (state : Store.EbookStore) (i : string) (p : Store.PartialChapter) :
  List.length (Store.chapters (Store.updateChapter i p state))
  = List.length (Store.chapters state) /\
  map Store.id (Store.chapters (Store.updateChapter i p state))
  = map (fun c => if String.eqb (Store.id c) i
                  then Store.or_default (Store.p_id p) i else Store.id c)
        (Store.chapters state).
Proof.
  unfold Store.updateChapter, Store.numberChapters. cbn [Store.chapters].
  rewrite numberFrom_length, numberFrom_ids, length_map, map_map.
  split; [reflexivity|].
  apply map_ext_in. intros c _.
  destruct (String.eqb_spec (Store.id c) i) as [E|E]; [|reflexivity].
  unfold Store.merge. cbn [Store.id]. rewrite E. reflexivity.
Qed.

Section PaginationPass.

Import Store.
Local Open Scope list_scope.

(** ** The pass reads no page number *)

Lemma mapAccum_congruence {S A} (R : A -> A -> Prop) (f : S -> A -> S * A) :
  (forall s a a', R a a' -> f s a' = f s a) ->
  forall l l', Forall2 R l l' -> forall s, mapAccum f s l' = mapAccum f s l.
Proof.
  intros Hf l l' H. induction H as [|a a' l l' Ha H IH]; intros s; simpl;
    [reflexivity|].
  rewrite (Hf s a a' Ha). destruct (f s a) as [s1 b]. rewrite IH. reflexivity.
Qed.

Lemma subChapterStep_congruence cpp b c sub sub' :
  subChapterKept sub sub' ->
  subChapterStep cpp b c sub' = subChapterStep cpp b c sub.
Proof.
  intros (Hi & Ht & Hc). unfold subChapterStep. rewrite Hi, Ht, Hc. reflexivity.
Qed.

Lemma chapterStep_congruence cpp c ch ch' :
  chapterKept ch ch' -> chapterStep cpp c ch' = chapterStep cpp c ch.
Proof.
  intros (Hi & Ht & Hc & Him & Hty & Hin & Hl & Hs).
  unfold chapterStep, totalPagesOf, isPreContent.
  rewrite Hi, Ht, Hc, Him, Hty, Hin, Hl.
  rewrite (mapAccum_congruence subChapterKept _
             (subChapterStep_congruence cpp _) _ _ Hs).
  reflexivity.
Qed.

Lemma pass_congruence cpp l l' :
  Forall2 chapterKept l l' ->
  forall c, mapAccum (chapterStep cpp) c l' = mapAccum (chapterStep cpp) c l.
Proof.
  apply mapAccum_congruence. intros s a a'. apply chapterStep_congruence.
Qed.

Lemma calculatePageNumbers_congruence l l' s :
  Forall2 chapterKept l l' ->
  calculatePageNumbers {| chapters := l'; settings := s |}
  = calculatePageNumbers {| chapters := l; settings := s |}.
Proof.
  intros H. unfold calculatePageNumbers. cbn [chapters settings].
  rewrite (pass_congruence _ _ _ H). reflexivity.
Qed.

Lemma subChapterKept_sym a b : subChapterKept a b -> subChapterKept b a.
Proof. unfold subChapterKept. intuition congruence. Qed.

Lemma Forall2_flip_kept {A} (R : A -> A -> Prop) :
  (forall a b, R a b -> R b a) ->
  forall l l', Forall2 R l l' -> Forall2 R l' l.
Proof. intros Hs l l' H. induction H; constructor; auto. Qed.

Lemma chapterKept_sym a b : chapterKept a b -> chapterKept b a.
Proof.
  intros (?&?&?&?&?&?&?&Hs). unfold chapterKept. repeat split; try congruence.
  exact (Forall2_flip_kept _ subChapterKept_sym _ _ Hs).
Qed.

(** ** Every entry gets a page number *)

Lemma mapAccum_all {S A} (P : A -> Prop) (f : S -> A -> S * A) :
  (forall s a, P (snd (f s a))) ->
  forall l s, Forall P (snd (mapAccum f s l)).
Proof.
  intros Hf. induction l as [|a l IH]; intros s; simpl; [constructor|].
  specialize (Hf s a). destruct (f s a) as [s1 b].
  specialize (IH s1). destruct (mapAccum f s1 l) as [s2 bs].
  simpl in *. constructor; assumption.
Qed.

Lemma subChapterStep_paged cpp b c sub :
  sub_pageNumber (snd (subChapterStep cpp b c sub)) <> None.
Proof. discriminate. Qed.

Lemma chapterStep_paged cpp c ch : paged (snd (chapterStep cpp c ch)).
Proof.
  unfold chapterStep.
  pose proof (mapAccum_all (fun sub => sub_pageNumber sub <> None)
                (subChapterStep cpp (isPreContent ch))
                (subChapterStep_paged cpp (isPreContent ch))
                (subChapters ch)
                (advance (isPreContent ch) (totalPagesOf cpp ch)
                   (advance (isPreContent ch) 1 c))) as Hsub.
  destruct (mapAccum (subChapterStep cpp (isPreContent ch)) _ (subChapters ch))
    as [c3 subs].
  split; simpl in *; [discriminate | exact Hsub].
Qed.

(** ** The two counters do not meet *)

Lemma current_advance_other b n c :
  current (negb b) (advance b n c) = current (negb b) c.
Proof. destruct b; reflexivity. Qed.

Lemma current_advance_same b n c c' :
  current b c = current b c' ->
  current b (advance b n c) = current b (advance b n c').
Proof. destruct b; simpl; intros ->; reflexivity. Qed.

Lemma subPass_other cpp b subs : forall c,
  current (negb b) (fst (mapAccum (subChapterStep cpp b) c subs))
  = current (negb b) c.
Proof.
  induction subs as [|sub subs IH]; intros c; [reflexivity|].
  cbn [mapAccum]. unfold subChapterStep at 1.
  match goal with |- context [mapAccum _ (advance b ?n c) subs] =>
    specialize (IH (advance b n c));
    destruct (mapAccum (subChapterStep cpp b) (advance b n c) subs) as [c2 bs]
  end.
  simpl in *. rewrite IH. apply current_advance_other.
Qed.

Lemma subPass_same cpp b subs : forall c c',
  current b c = current b c' ->
  snd (mapAccum (subChapterStep cpp b) c subs)
  = snd (mapAccum (subChapterStep cpp b) c' subs) /\
  current b (fst (mapAccum (subChapterStep cpp b) c subs))
  = current b (fst (mapAccum (subChapterStep cpp b) c' subs)).
Proof.
  induction subs as [|sub subs IH]; intros c c' H; [simpl; auto|].
  cbn [mapAccum]. unfold subChapterStep at 1 3 5 7.
  match goal with |- context [mapAccum _ (advance b ?n c) subs] =>
    specialize (IH (advance b n c) (advance b n c')
                  (current_advance_same b n c c' H));
    destruct (mapAccum (subChapterStep cpp b) (advance b n c) subs) as [c2 bs];
    destruct (mapAccum (subChapterStep cpp b) (advance b n c') subs) as [c2' bs']
  end.
  simpl in *. destruct IH as [-> ->]. rewrite H. auto.
Qed.

Lemma chapterStep_other cpp c ch :
  current (negb (isPreContent ch)) (fst (chapterStep cpp c ch))
  = current (negb (isPreContent ch)) c.
Proof.
  unfold chapterStep.
  pose proof (subPass_other cpp (isPreContent ch) (subChapters ch)
                (advance (isPreContent ch) (totalPagesOf cpp ch)
                   (advance (isPreContent ch) 1 c))) as H.
  destruct (mapAccum (subChapterStep cpp (isPreContent ch)) _ (subChapters ch))
    as [c3 subs].
  simpl in *. rewrite H, !current_advance_other. reflexivity.
Qed.

Lemma chapterStep_same cpp c c' ch :
  current (isPreContent ch) c = current (isPreContent ch) c' ->
  snd (chapterStep cpp c ch) = snd (chapterStep cpp c' ch) /\
  current (isPreContent ch) (fst (chapterStep cpp c ch))
  = current (isPreContent ch) (fst (chapterStep cpp c' ch)).
Proof.
  intros H. unfold chapterStep.
  set (b := isPreContent ch) in *.
  pose proof (subPass_same cpp b (subChapters ch)
                (advance b (totalPagesOf cpp ch) (advance b 1 c))
                (advance b (totalPagesOf cpp ch) (advance b 1 c'))
                (current_advance_same b _ _ _ (current_advance_same b 1 c c' H)))
    as [Hs Hc].
  destruct (mapAccum (subChapterStep cpp b)
              (advance b (totalPagesOf cpp ch) (advance b 1 c)) (subChapters ch))
    as [c3 subs].
  destruct (mapAccum (subChapterStep cpp b)
              (advance b (totalPagesOf cpp ch) (advance b 1 c')) (subChapters ch))
    as [c3' subs'].
  simpl in *. subst subs'. rewrite H. auto.
Qed.

Lemma chapterStep_isPre cpp c ch :
  isPreContent (snd (chapterStep cpp c ch)) = isPreContent ch.
Proof.
  unfold chapterStep.
  destruct (mapAccum (subChapterStep cpp (isPreContent ch)) _ (subChapters ch)).
  reflexivity.
Qed.

Lemma pass_one_counter cpp b l : forall c c',
  current b c = current b c' ->
  filter (countedBy b) (snd (mapAccum (chapterStep cpp) c l))
  = snd (mapAccum (chapterStep cpp) c' (filter (countedBy b) l)).
Proof.
  induction l as [|ch l IH]; intros c c' H; [reflexivity|].
  cbn [mapAccum filter].
  pose proof (chapterStep_isPre cpp c ch) as Hty.
  destruct (Bool.eqb (isPreContent ch) b) eqn:E.
  - apply Bool.eqb_prop in E. subst b.
    destruct (chapterStep_same cpp c c' ch H) as [Hs Hc].
    unfold countedBy at 2. rewrite Bool.eqb_reflx. cbn [mapAccum].
    destruct (chapterStep cpp c ch) as [c1 o].
    destruct (chapterStep cpp c' ch) as [c1' o'].
    simpl in Hs, Hc, Hty. subst o'.
    specialize (IH c1 c1' Hc).
    destruct (mapAccum (chapterStep cpp) c1 l) as [c2 os].
    destruct (mapAccum (chapterStep cpp) c1' (filter _ l)) as [c2' os'].
    simpl in *. unfold countedBy at 1. rewrite Hty, Bool.eqb_reflx.
    f_equal. exact IH.
  - assert (Hb : b = negb (isPreContent ch)).
    { destruct b, (isPreContent ch); simpl in E |- *; congruence. }
    pose proof (chapterStep_other cpp c ch) as Ho. rewrite <- Hb in Ho.
    unfold countedBy at 2. rewrite E.
    destruct (chapterStep cpp c ch) as [c1 o]. simpl in Ho, Hty.
    assert (Hc : current b c1 = current b c') by congruence.
    specialize (IH c1 c' Hc).
    destruct (mapAccum (chapterStep cpp) c1 l) as [c2 os].
    simpl in *. unfold countedBy at 1. rewrite Hty, E. exact IH.
Qed.

(** ** [reorderChapters] *)

Lemma byType_kept l : Forall2 chapterKept (byType l) (orderedChaptersOf l).
Proof.
  unfold byType, orderedChaptersOf.
  repeat apply Forall2_app; try apply Forall2_refl_kept.
  apply numberAll_kept.
Qed.

Lemma reorder_by_type l state :
  reorderChapters l state
  = calculatePageNumbers {| chapters := byType l; settings := settings state |}.
Proof.
  unfold reorderChapters. apply calculatePageNumbers_congruence. apply byType_kept.
Qed.

Lemma filter_none_of {A} (f : A -> bool) (l : list A) :
  Forall (fun x => f x = false) l -> filter f l = [].
Proof. induction 1 as [|x l Hx _ IH]; simpl; [|rewrite Hx]; auto. Qed.

Lemma filter_all_of {A} (f : A -> bool) (l : list A) :
  Forall (fun x => f x = true) l -> filter f l = l.
Proof. induction 1 as [|x l Hx _ IH]; simpl; [|rewrite Hx, IH]; auto. Qed.

Lemma typed (t : ChapterType) (f : Chapter -> bool) l :
  (forall c, type c = t -> f c = true) ->
  Forall (fun c => type c = t) l -> Forall (fun c => f c = true) l.
Proof. intros H F. induction F; constructor; auto. Qed.

Lemma untyped (t : ChapterType) (f : Chapter -> bool) l :
  (forall c, type c = t -> f c = false) ->
  Forall (fun c => type c = t) l -> Forall (fun c => f c = false) l.
Proof. intros H F. induction F; constructor; auto. Qed.

(** A list that is already in the four segments is its own split. *)
Lemma byType_fixed fm tc mn bm :
  Forall (fun c => type c = frontmatter) fm ->
  Forall (fun c => type c = toc) tc ->
  Forall (fun c => type c = chapter) mn ->
  Forall (fun c => type c = backmatter) bm ->
  byType (fm ++ tc ++ mn ++ bm) = fm ++ tc ++ mn ++ bm.
Proof.
  intros Hf Ht Hm Hb. unfold byType. rewrite !filter_app.
  rewrite (filter_all_of isFrontmatter fm), (filter_none_of isFrontmatter tc),
    (filter_none_of isFrontmatter mn), (filter_none_of isFrontmatter bm),
    (filter_none_of isToc fm), (filter_all_of isToc tc),
    (filter_none_of isToc mn), (filter_none_of isToc bm),
    (filter_none_of isChapter fm), (filter_none_of isChapter tc),
    (filter_all_of isChapter mn), (filter_none_of isChapter bm),
    (filter_none_of isBackmatter fm), (filter_none_of isBackmatter tc),
    (filter_none_of isBackmatter mn), (filter_all_of isBackmatter bm);
    try (rewrite !app_nil_r; simpl; reflexivity);
    first [ eapply typed; [|eassumption] | eapply untyped; [|eassumption] ];
    intros c Hc; unfold isFrontmatter, isToc, isChapter, isBackmatter;
    rewrite Hc; reflexivity.
Qed.

Lemma stored_in_segments l state :
  byType (chapters (reorderChapters l state)) = chapters (reorderChapters l state).
Proof.
  assert (H : Forall2 chapterKept (orderedChaptersOf l)
                 (chapters (reorderChapters l state))).
  { exact (calculatePageNumbers_kept
             {| chapters := orderedChaptersOf l; settings := settings state |}). }
  unfold orderedChaptersOf in H.
  apply Forall2_app_inv_l in H. destruct H as (fm & r1 & Hfm & H & E1).
  apply Forall2_app_inv_l in H. destruct H as (tc & r2 & Htc & H & E2).
  apply Forall2_app_inv_l in H. destruct H as (mn & bm & Hmn & Hbm & E3).
  pose proof (Forall2_compose _ chapterKept_trans _ _ _ (numberAll_kept _ 1) Hmn)
    as Hmn'.
  subst r2 r1. rewrite E1. apply byType_fixed.
  - apply (kept_type isFrontmatter frontmatter l); auto.
    intros c; unfold isFrontmatter; destruct (type c); congruence.
  - apply (kept_type isToc toc l); auto.
    intros c; unfold isToc; destruct (type c); congruence.
  - apply (kept_type isChapter chapter l); auto.
    intros c; unfold isChapter; destruct (type c); congruence.
  - apply (kept_type isBackmatter backmatter l); auto.
    intros c; unfold isBackmatter; destruct (type c); congruence.
Qed.

Lemma byType_permutation l : Permutation l (byType l).
Proof.
  unfold byType. induction l as [|c l IH]; [constructor|].
  unfold isFrontmatter, isToc, isChapter, isBackmatter in *. simpl.
  destruct (type c); simpl.
  - constructor. exact IH.
  - apply Permutation_cons_app. exact IH.
  - rewrite app_assoc. apply Permutation_cons_app. rewrite <- app_assoc. exact IH.
  - rewrite !app_assoc. apply Permutation_cons_app. rewrite <- !app_assoc. exact IH.
Qed.

End PaginationPass.

Section SubChapters.

Import Store.
Local Open Scope list_scope.







End SubChapters.

(** X7. [calculatePageNumbers] reads no stored page number: two states with
    the same settings whose chapter lists agree in every field but the page
    numbers of chapters and subchapters give the same state. *)
Theorem calculatePageNumbers_reads_no_page_number (state state' : Store.EbookStore) :
  Store.settings state' = Store.settings state ->
  Forall2 chapterKept (Store.chapters state) (Store.chapters state') ->
  Store.calculatePageNumbers state' = Store.calculatePageNumbers state.
Proof.
  destruct state as [l s], state' as [l' s']. cbn [Store.chapters Store.settings].
  intros -> H. apply calculatePageNumbers_congruence. exact H.
Qed.

Lemma calculatePageNumbers_reads_no_page_number_witness :
  Store.calculatePageNumbers oneChapterPaged = Store.calculatePageNumbers oneChapter.
Proof.
  apply (calculatePageNumbers_reads_no_page_number oneChapter oneChapterPaged).
  - reflexivity.
  - vm_compute. repeat constructor.
Defined.

(** X8. The roman and the arabic counter do not influence each other: the
    frontmatter and toc entries get the page numbers (their subchapters'
    included) that they get when the other entries are taken out of the
    list, and the chapter and backmatter entries those that they get
    without the frontmatter and toc entries. *)
Theorem counters_are_independent (state : Store.EbookStore) (b : bool) :
  filter (countedBy b) (Store.chapters (Store.calculatePageNumbers state))
  = Store.chapters
      (Store.calculatePageNumbers
         {| Store.chapters := filter (countedBy b) (Store.chapters state);
            Store.settings := Store.settings state |}).
Proof.
  unfold Store.calculatePageNumbers. cbn [Store.chapters Store.settings].
  apply pass_one_counter. reflexivity.
Qed.

(** X9. [reorderChapters] is idempotent: passing the stored list to it
    again leaves the state as it is. *)
Theorem reorderChapters_idempotent (l : list Store.Chapter) (state : Store.EbookStore) :
  Store.reorderChapters
    (Store.chapters (Store.reorderChapters l state)) (Store.reorderChapters l state)
  = Store.reorderChapters l state.
Proof.
  rewrite (reorder_by_type (Store.chapters (Store.reorderChapters l state))).
  rewrite stored_in_segments.
  set (r := Store.reorderChapters l state).
  assert (Hr : r = Store.calculatePageNumbers
                     {| Store.chapters := Store.orderedChaptersOf l;
                        Store.settings := Store.settings state |}) by reflexivity.
  rewrite Hr at 3.
  replace (Store.settings r) with (Store.settings state) by reflexivity.
  apply calculatePageNumbers_congruence.
  exact (calculatePageNumbers_kept
           {| Store.chapters := Store.orderedChaptersOf l;
              Store.settings := Store.settings state |}).
Qed.

(** X10. [reorderChapters] stores every entry of the list it is given, once:
    the input split by type is a permutation of the input, and the stored
    list is that split, entry by entry, with only page numbers changed.
    The chapter numbers 1..K it assigns do not reach the store: the state is
    the one [calculatePageNumbers] gives on the split without them. *)
Theorem reorderChapters_keeps_entries (l : list Store.Chapter) (state : Store.EbookStore) :
  Permutation l (byType l) /\
  Forall2 chapterKept (byType l) (Store.chapters (Store.reorderChapters l state)) /\
  List.length (Store.chapters (Store.reorderChapters l state)) = List.length l /\
  Store.reorderChapters l state
  = Store.calculatePageNumbers
      {| Store.chapters := byType l; Store.settings := Store.settings state |}.
Proof.
  assert (H : Forall2 chapterKept (byType l)
                (Store.chapters (Store.reorderChapters l state))).
  { rewrite reorder_by_type.
    exact (calculatePageNumbers_kept
             {| Store.chapters := byType l; Store.settings := Store.settings state |}). }
  repeat split.
  - apply byType_permutation.
  - exact H.
  - rewrite <- (Forall2_length H). symmetry.
    apply Permutation_length. apply byType_permutation.
  - apply reorder_by_type.
Qed.



(** X12. [addSubChapter] with a chapter identifier that matches no chapter
    adds nothing and raises no error: the state is the one
    [calculatePageNumbers] gives. *)
Theorem addSubChapter_absent_chapter
    (state : Store.EbookStore) (newId chapterId t : string) :
  (forall c, In c (Store.chapters state) -> Store.id c <> chapterId) ->
  Store.addSubChapter newId chapterId t state = Store.calculatePageNumbers state.
Proof.
  intros H. unfold Store.addSubChapter. rewrite map_fixed.
  - destruct state; reflexivity.
  - intros c Hc. destruct (String.eqb_spec (Store.id c) chapterId) as [E | _];
      [exfalso; exact (H c Hc E) | reflexivity].
Qed.

Lemma addSubChapter_absent_chapter_witness :
  Store.addSubChapter "s9" "none" "Lost" oneChapter
  = Store.calculatePageNumbers oneChapter.
Proof.
  apply (addSubChapter_absent_chapter oneChapter "s9" "none" "Lost").
  intros c [<- | []]. discriminate.
Defined.


(** X14. After [calculatePageNumbers], and so after [reorderChapters],
    [addSubChapter] and [removeSubChapter], which end with it, every chapter
    and every subchapter carries a page number, those that [addChapter]
    stored without one included. *)
Theorem every_entry_paged (state : Store.EbookStore)
    (l : list Store.Chapter) (newId chapterId subChapterId t : string) :
  Forall paged (Store.chapters (Store.calculatePageNumbers state)) /\
  Forall paged (Store.chapters (Store.reorderChapters l state)) /\
  Forall paged (Store.chapters (Store.addSubChapter newId chapterId t state)) /\
  Forall paged (Store.chapters (Store.removeSubChapter chapterId subChapterId state)).
Proof.
  repeat split;
    unfold Store.reorderChapters, Store.addSubChapter, Store.removeSubChapter,
      Store.calculatePageNumbers; cbn [Store.chapters Store.settings];
    apply mapAccum_all; intros s a; apply chapterStep_paged.
Qed.

(* ================================================================== *)
(** * Further properties of the extractor *)
(* ================================================================== *)

Section LoopBody.

Import Toc.
Local Open Scope list_scope.

Lemma specialStep_cases line st :
  specialStep line st = st \/
  exists e h ri, has (seenHeadings st) h = false /\
                 (forall lines, pushes lines line st e h ri) /\
                 specialStep line st = pushed st e h ri.
Proof.
  unfold specialStep. destruct (specialMatch line) as [m|] eqn:Hm; [|left; reflexivity].
  destruct (has (seenHeadings st) (Js.trim m)) eqn:Hh; [left; reflexivity|].
  right. do 3 eexists. split; [exact Hh|]. split; [|reflexivity].
  intros lines. constructor. exact Hm.
Qed.

Lemma babStep_cases lines line st :
  babStep lines line st = st \/
  exists e h ri, has (seenHeadings st) h = false /\
                 pushes lines line st e h ri /\
                 babStep lines line st = pushed st e h ri.
Proof.
  unfold babStep. destruct (babMatch line) as [m|] eqn:Hm; [|left; reflexivity].
  destruct (has (seenHeadings st) (Js.trim m)) eqn:Hh; [left; reflexivity|].
  destruct (isMainContentStarted st) eqn:Hs; [|left; reflexivity].
  right. exists {| type := chapter;
                   title := babTitleOf lines line;
                   content := ("BAB "
                               ++ Js.String_of_nat (List.length (tableOfContents st) + 1)
                               ++ " : " ++ babTitleOf lines line)%string;
                   pageNumber := PNum (pageCounter st) |}, (Js.trim m), (romanIndex st).
  split; [exact Hh|]. split.
  - constructor; assumption.
  - unfold pushed. rewrite Hs. reflexivity.
Qed.

Lemma subbabStep_cases line st :
  subbabStep line st = st \/
  exists e h ri, has (seenHeadings st) h = false /\
                 (forall lines, pushes lines line st e h ri) /\
                 subbabStep line st = pushed st e h ri.
Proof.
  unfold subbabStep. destruct (subbabMatch line) as [m|] eqn:Hm; [|left; reflexivity].
  destruct (has (seenHeadings st) (Js.trim m)) eqn:Hh; [left; reflexivity|].
  destruct (isMainContentStarted st) eqn:Hs; [|left; reflexivity].
  right. exists {| type := subchapter;
                   title := Js.trim m;
                   content := (Js.trim m ++ " - Halaman "
                               ++ Js.String_of_nat (pageCounter st))%string;
                   pageNumber := PNum (pageCounter st) |}, (Js.trim m), (romanIndex st).
  split; [exact Hh|]. split.
  - intros lines. constructor; assumption.
  - unfold pushed. simpl. rewrite Hs. reflexivity.
Qed.

(** An invariant that every push keeps is kept by the loop body. *)
Lemma lineStep_invariant (I : State -> Prop) lines line st :
  (forall s e h ri,
      I s -> has (seenHeadings s) h = false -> pushes lines line s e h ri ->
      I (pushed s e h ri)) ->
  I st -> I (lineStep lines st line).
Proof.
  intros Hpush Hst. unfold lineStep.
  assert (H1 : I (specialStep line st)).
  { destruct (specialStep_cases line st) as [-> | (e & h & ri & Hh & Hp & ->)];
      [exact Hst | apply Hpush; auto]. }
  assert (H2 : I (babStep lines line (specialStep line st))).
  { destruct (babStep_cases lines line (specialStep line st))
      as [-> | (e & h & ri & Hh & Hp & ->)]; [exact H1 | apply Hpush; auto]. }
  destruct (subbabStep_cases line (babStep lines line (specialStep line st)))
    as [-> | (e & h & ri & Hh & Hp & ->)]; [exact H2 | apply Hpush; auto].
Qed.

Lemma lineStep_counter lines line st :
  pageCounter (lineStep lines st line) = pageCounter st /\
  isMainContentStarted (lineStep lines st line) = isMainContentStarted st.
Proof.
  apply (lineStep_invariant
           (fun s => pageCounter s = pageCounter st /\
                     isMainContentStarted s = isMainContentStarted st));
    [intros s e h ri H _ _; exact H | auto].
Qed.

(** The outer loop, page by page: [Before n] holds before the page of
    index [n] is scanned and [During n] while it is. *)
Lemma run_phases (pagesText : list string) (Before During : nat -> State -> Prop) :
  Before 0 initialState ->
  (forall n st text, Before n st -> During n (startMainContent text st)) ->
  (forall n st lines line, During n st -> During n (lineStep lines st line)) ->
  (forall n st, During n st -> Before (S n) (endPage st)) ->
  Before (List.length pagesText) (run pagesText).
Proof.
  intros Hinit Hstart Hline Hend. unfold run.
  assert (H : forall l n st, Before n st ->
                Before (n + List.length l) (fold_left pageStep l st)).
  { induction l as [|text l IH]; intros n st Hst; simpl.
    - rewrite Nat.add_0_r. exact Hst.
    - rewrite <- Nat.add_succ_comm. apply IH. unfold pageStep. apply Hend.
      assert (Hl : forall ls s, During n s ->
                     During n (fold_left (lineStep (Js.split_lines text)) ls s)).
      { induction ls as [|line ls IHl]; intros s Hs; simpl; [exact Hs|].
        apply IHl. apply Hline. exact Hs. }
      apply Hl. apply Hstart. exact Hst. }
  exact (H pagesText 0 initialState Hinit).
Qed.

(** ** Page numbers *)

Lemma pageNumbers_app es es' :
  pageNumbers (es ++ es') = pageNumbers es ++ pageNumbers es'.
Proof. unfold pageNumbers. apply flat_map_app. Qed.

Lemma StronglySorted_snoc l m :
  StronglySorted le l -> Forall (fun x => x <= m) l -> StronglySorted le (l ++ [m]).
Proof.
  induction 1 as [|x l Hs IH Hx]; intros F; simpl.
  - constructor; constructor.
  - inversion F; subst. constructor; [apply IH; assumption|].
    apply Forall_app. split; [assumption | constructor; [assumption | constructor]].
Qed.

Lemma pagesBounded_push eb pb lines line s e h ri :
  pagesBounded eb pb s -> pb <= eb -> pushes lines line s e h ri ->
  pagesBounded eb pb (pushed s e h ri).
Proof.
  intros (Hpc & Hall & Hsort) Hle Hp. unfold pagesBounded, pushed.
  cbn [isMainContentStarted pageCounter tableOfContents].
  rewrite pageNumbers_app.
  destruct Hp as [m Hm | m Hm Hs | m Hm Hs]; cbn [pageNumbers flat_map pageNumber app].
  - rewrite !app_nil_r. auto.
  - destruct (Hpc Hs) as [H1 H2]. split; [exact Hpc|]. split.
    + apply Forall_app. split; [exact Hall|]. constructor; [|constructor].
      repeat split; auto; lia.
    + apply StronglySorted_snoc; [exact Hsort|].
      refine (Forall_impl _ _ Hall). intros x Hx. apply Hx.
  - destruct (Hpc Hs) as [H1 H2]. split; [exact Hpc|]. split.
    + apply Forall_app. split; [exact Hall|]. constructor; [|constructor].
      repeat split; auto; lia.
    + apply StronglySorted_snoc; [exact Hsort|].
      refine (Forall_impl _ _ Hall). intros x Hx. apply Hx.
Qed.

Lemma pagesBounded_run pagesText :
  pagesBounded (List.length pagesText) (List.length pagesText + 1) (run pagesText).
Proof.
  apply (run_phases pagesText
           (fun n => pagesBounded n (n + 1))
           (fun n => pagesBounded (n + 1) (n + 1))).
  - repeat split; simpl; try discriminate; constructor.
  - intros n st text (Hpc & Hall & Hsort). unfold startMainContent.
    destruct (isMainContentStarted st) eqn:Hs; simpl.
    + repeat split; try apply Hpc; auto.
      refine (Forall_impl _ _ Hall). intros x (? & ? & ? & ?). repeat split; auto; lia.
    + destruct (testBab1 text); unfold pagesBounded; simpl.
      * destruct (pageNumbers (tableOfContents st)) as [|x l].
        -- repeat split; try lia; constructor.
        -- inversion Hall as [|? ? (Hx & _)]; discriminate.
      * rewrite Hs. repeat split; try discriminate; auto.
        refine (Forall_impl _ _ Hall). intros x (Hx & _). discriminate.
  - intros n st lines line H. apply lineStep_invariant; [|exact H].
    intros s e h ri Hs _ Hp. apply (pagesBounded_push _ _ lines line); auto.
  - intros n st (Hpc & Hall & Hsort). unfold endPage.
    destruct (isMainContentStarted st) eqn:Hs; unfold pagesBounded; simpl.
    + destruct (Hpc eq_refl). repeat split; try lia; auto.
      refine (Forall_impl _ _ Hall). intros x (? & ? & ? & ?). repeat split; auto; lia.
    + rewrite Hs. repeat split; try discriminate; auto.
      refine (Forall_impl _ _ Hall). intros x (Hx & _). discriminate.
Qed.

End LoopBody.

(** X15. The page numbers of the chapter and subchapter entries lie between
    1 and the number of pages of the input, and never decrease along the
    output. *)
Theorem page_numbers_bounded_and_ordered (pagesText : list string) :
  Forall (fun m => 1 <= m /\ m <= List.length pagesText)
    (pageNumbers (Toc.processTableOfContents pagesText)) /\
  StronglySorted le (pageNumbers (Toc.processTableOfContents pagesText)).
Proof.
  destruct (pagesBounded_run pagesText) as (_ & Hall & Hsort).
  split; [|exact Hsort].
  refine (Forall_impl _ _ Hall). intros x (_ & ? & ? & _). auto.
Qed.

Section Headings.

Import Toc.
Local Open Scope list_scope.

(** ** Strings *)

Lemma rev_string_snoc s c :
  Js.rev_string (s ++ String c EmptyString)%string = String c (Js.rev_string s).
Proof. induction s as [|a s IH]; simpl; [|rewrite IH]; reflexivity. Qed.

Lemma rev_string_involutive s : Js.rev_string (Js.rev_string s) = s.
Proof.
  induction s as [|a s IH]; simpl; [reflexivity|].
  rewrite rev_string_snoc, IH. reflexivity.
Qed.

Lemma dropWhile_headOK s : headOK (Js.dropWhile Js.isSpace s).
Proof.
  induction s as [|c s IH]; simpl; [exact I|].
  destruct (Js.isSpace c) eqn:E; [exact IH | exact E].
Qed.

Lemma dropWhile_fixed s : headOK s -> Js.dropWhile Js.isSpace s = s.
Proof. destruct s as [|c s]; simpl; [|intros ->]; reflexivity. Qed.

Lemma headOK_app a b :
  a <> EmptyString -> headOK (a ++ b)%string -> headOK a.
Proof. destruct a; simpl; [congruence | auto]. Qed.

Lemma rev_string_empty s : Js.rev_string s = EmptyString -> s = EmptyString.
Proof.
  intros H. apply (f_equal Js.rev_string) in H.
  rewrite rev_string_involutive in H. exact H.
Qed.

(** Dropping leading white space keeps the end of the string. *)
Lemma dropWhile_keeps_end s :
  headOK (Js.rev_string s) -> headOK (Js.rev_string (Js.dropWhile Js.isSpace s)).
Proof.
  induction s as [|c s IH]; simpl; [auto|].
  destruct (Js.isSpace c) eqn:E; [|auto].
  intros H. destruct (Js.rev_string s) as [|a r] eqn:Er.
  - apply rev_string_empty in Er. subst s. exact I.
  - apply IH. exact H.
Qed.

Lemma trim_fixed s : headOK s -> headOK (Js.rev_string s) -> Js.trim s = s.
Proof.
  intros H1 H2. unfold Js.trim.
  rewrite (dropWhile_fixed s H1), (dropWhile_fixed _ H2).
  apply rev_string_involutive.
Qed.

Lemma trim_trimmed s :
  headOK (Js.trim s) /\ headOK (Js.rev_string (Js.trim s)).
Proof.
  unfold Js.trim. rewrite rev_string_involutive. split; [|apply dropWhile_headOK].
  pose proof (dropWhile_headOK s) as H.
  set (v := Js.dropWhile Js.isSpace s) in *. clearbody v.
  apply dropWhile_keeps_end. rewrite rev_string_involutive. exact H.
Qed.

Lemma trim_idempotent s : Js.trim (Js.trim s) = Js.trim s.
Proof. destruct (trim_trimmed s). apply trim_fixed; assumption. Qed.

(** ** What the front-matter pattern matches *)

Lemma search_found {A} (at_ : string -> option A) s m :
  Js.search at_ s = Some m -> exists s', at_ s' = Some m.
Proof.
  induction s as [|c s IH]; simpl.
  - destruct (at_ EmptyString) eqn:E; [intros [= <-]; eauto | discriminate].
  - destruct (at_ (String c s)) eqn:E; [intros [= <-]; eauto | exact IH].
Qed.

Lemma ciEqb_lower c p : Js.ciEqb c p = true -> Js.lower c = Js.lower p.
Proof. unfold Js.ciEqb. apply Ascii.eqb_eq. Qed.

Lemma ciPrefix_lower p : forall s m r,
  Js.ciPrefix p s = Some (m, r) -> lowerString m = lowerString p.
Proof.
  induction p as [|pc p IH]; intros s m r; simpl.
  - intros [= <- _]. reflexivity.
  - destruct s as [|c s]; [discriminate|].
    destruct (Js.ciEqb c pc) eqn:E; [|discriminate].
    destruct (Js.ciPrefix p s) as [[m' r']|] eqn:Ep; [|discriminate].
    intros [= <- _]. simpl. rewrite (ciEqb_lower _ _ E), (IH _ _ _ Ep). reflexivity.
Qed.

Lemma lowerString_app a b :
  lowerString (a ++ b)%string = (lowerString a ++ lowerString b)%string.
Proof. induction a as [|c a IH]; simpl; [|rewrite IH]; reflexivity. Qed.

Lemma lowerString_rev s :
  lowerString (Js.rev_string s) = Js.rev_string (lowerString s).
Proof.
  induction s as [|c s IH]; simpl; [reflexivity|].
  rewrite lowerString_app, IH. reflexivity.
Qed.

Lemma space_lower c : Js.isSpace c = true -> Js.lower c = c.
Proof.
  destruct c as [[] [] [] [] [] [] [] []]; vm_compute; intros H;
    first [reflexivity | discriminate H].
Qed.

(** A string whose lower-case form starts with a character that is not
    white space does not start with white space. *)
Lemma headOK_lower s c r :
  lowerString s = String c r -> Js.isSpace c = false -> headOK s.
Proof.
  destruct s as [|a s]; simpl; [discriminate|].
  intros [= Ha _] Hc. destruct (Js.isSpace a) eqn:E; [|reflexivity].
  rewrite (space_lower a E) in Ha. subst a. congruence.
Qed.

Lemma special_text line m :
  specialMatch line = Some m ->
  Js.trim m = m /\
  (lowerString m = "kata pengantar"%string \/ lowerString m = "daftar isi"%string).
Proof.
  intros H. apply search_found in H. destruct H as [s' H].
  unfold specialSectionAt in H.
  destruct (Js.ciPrefix "Kata Pengantar" s') as [[m1 r1]|] eqn:E1.
  - injection H as <-. apply ciPrefix_lower in E1. simpl in E1.
    split; [|left; exact E1].
    apply trim_fixed.
    + eapply headOK_lower; [exact E1 | reflexivity].
    + eapply headOK_lower; [rewrite lowerString_rev, E1 | ]; reflexivity.
  - destruct (Js.ciPrefix "Daftar Isi" s') as [[m2 r2]|] eqn:E2; [|discriminate].
    injection H as <-. apply ciPrefix_lower in E2. simpl in E2.
    split; [|right; exact E2].
    apply trim_fixed.
    + eapply headOK_lower; [exact E2 | reflexivity].
    + eapply headOK_lower; [rewrite lowerString_rev, E2 | ]; reflexivity.
Qed.

(** ** Invariants of the output, entry by entry *)

Lemma entries_invariant (P : Entry -> Prop) pagesText :
  (forall lines line s e h ri, pushes lines line s e h ri -> P e) ->
  Forall P (processTableOfContents pagesText).
Proof.
  intros HP. unfold processTableOfContents.
  apply (run_invariant pagesText (fun st => Forall P (tableOfContents st))).
  - constructor.
  - intros st text _ H. unfold startMainContent.
    destruct (negb (isMainContentStarted st) && testBab1 text); exact H.
  - intros st text line _ _ H. apply lineStep_invariant; [|exact H].
    intros s e h ri Hs _ Hp. unfold pushed. cbn [tableOfContents].
    apply Forall_app. split; [exact Hs|]. constructor; [|constructor].
    exact (HP _ _ _ _ _ _ Hp).
  - intros st H. unfold endPage. destruct (isMainContentStarted st); exact H.
Qed.

Lemma babTitleOf_trimmed lines line :
  Js.trim (babTitleOf lines line) = babTitleOf lines line.
Proof.
  unfold babTitleOf.
  destruct (match Js.indexOf lines line with
            | Some i => nth_error lines (i + 1)
            | None => nth_error lines 0
            end) as [l|]; [|reflexivity].
  destruct (Js.truthy l); [apply trim_idempotent | reflexivity].
Qed.

(** ** The line after a heading *)


(** ** Lines and items *)

Lemma split_lines_line a :
  noLineFeed a -> Js.split_lines a = [a].
Proof.
  induction a as [|c a IH]; simpl; [reflexivity|].
  intros [Hc Ha]. rewrite Hc, (IH Ha). reflexivity.
Qed.

Lemma split_lines_cons a s :
  noLineFeed a ->
  Js.split_lines (a ++ String (ascii_of_nat 10) s)%string = a :: Js.split_lines s.
Proof.
  induction a as [|c a IH]; simpl; [reflexivity|].
  intros [Hc Ha]. rewrite Hc, (IH Ha). reflexivity.
Qed.

Lemma split_join items :
  items <> [] -> Forall noLineFeed items ->
  Js.split_lines (Pdf.join (String (ascii_of_nat 10) EmptyString) items) = items.
Proof.
  induction items as [|a items IH]; intros Hne H; [congruence|].
  inversion H as [|? ? Ha Hr]; subst.
  destruct items as [|b items].
  - simpl. apply split_lines_line. exact Ha.
  - change (Pdf.join (String (ascii_of_nat 10) EmptyString) (a :: b :: items))
      with (a ++ String (ascii_of_nat 10)
                   (Pdf.join (String (ascii_of_nat 10) EmptyString) (b :: items)))%string.
    rewrite split_lines_cons by exact Ha.
    rewrite IH; [reflexivity | discriminate | exact Hr].
Qed.

End Headings.

(** X16. Without a page that mentions "Bab 1" (in any case) the output
    holds front-matter entries only: no chapter and no subchapter heading
    is recorded, whatever the pages hold. *)
Theorem only_frontmatter_before_bab1 (pagesText : list string) :
  Forall (fun text => Toc.testBab1 text = false) pagesText ->
  Forall (fun e => Toc.type e = Toc.frontmatter)
    (Toc.processTableOfContents pagesText).
Proof.
  intros Hno. rewrite Forall_forall in Hno.
  refine (proj2 (run_invariant pagesText
           (fun st => Toc.isMainContentStarted st = false /\
                      Forall (fun e => Toc.type e = Toc.frontmatter)
                        (Toc.tableOfContents st)) _ _ _ _)).
  - split; [reflexivity | constructor].
  - intros st text Hin H. unfold Toc.startMainContent.
    rewrite (Hno text Hin), andb_false_r. exact H.
  - intros st text line _ _ H. apply lineStep_invariant; [|exact H].
    intros s e h ri [Hs Hall] _ Hp. split; [exact Hs|].
    unfold pushed. cbn [Toc.tableOfContents].
    apply Forall_app. split; [exact Hall|]. constructor; [|constructor].
    destruct Hp; [reflexivity | congruence | congruence].
  - intros st [Hs Hall]. unfold Toc.endPage. rewrite Hs. auto.
Qed.

Lemma only_frontmatter_before_bab1_witness :
  Forall (fun e => Toc.type e = Toc.frontmatter)
    (Toc.processTableOfContents
       ["Daftar Isi" ++ LF ++ "Bab 2 Lanjutan" ++ LF ++ "2.1 Rincian"]).
Proof.
  apply (only_frontmatter_before_bab1
           ["Daftar Isi" ++ LF ++ "Bab 2 Lanjutan" ++ LF ++ "2.1 Rincian"]).
  repeat constructor.
Defined.

(** X17. Every entry of the output is well formed for its type: a
    front-matter entry has a string as page label and the content label
    "<title> - Halaman <label>"; a chapter entry has a number as page label
    and a content label "BAB <k> : <title>"; a subchapter entry has a
    number as page label and the content label "<title> - Halaman <page>". *)
Theorem entries_well_formed (pagesText : list string) :
  Forall wellFormed (Toc.processTableOfContents pagesText).
Proof.
  apply entries_invariant. intros lines line s e h ri Hp.
  destruct Hp; unfold wellFormed; simpl; [reflexivity | eexists; reflexivity | reflexivity].
Qed.

(** X18. The title of every entry is trimmed: it neither starts nor ends
    with white space, so trimming it again changes nothing. *)
Theorem titles_are_trimmed (pagesText : list string) :
  Forall (fun e => Js.trim (Toc.title e) = Toc.title e /\
                   headOK (Toc.title e) /\ headOK (Js.rev_string (Toc.title e)))
    (Toc.processTableOfContents pagesText).
Proof.
  apply entries_invariant. intros lines line s e h ri Hp.
  assert (H : Js.trim (Toc.title e) = Toc.title e).
  { destruct Hp; simpl;
      [apply trim_idempotent | apply babTitleOf_trimmed | apply trim_idempotent]. }
  split; [exact H|]. rewrite <- H. apply trim_trimmed.
Qed.

(** X19. The title of a front-matter entry is the label as the text writes
    it: in lower case it reads "kata pengantar" or "daftar isi". *)
Theorem frontmatter_titles (pagesText : list string) :
  Forall (fun e => lowerString (Toc.title e) = "kata pengantar" \/
                   lowerString (Toc.title e) = "daftar isi")
    (filter isFrontmatterEntry (Toc.processTableOfContents pagesText)).
Proof.
  assert (H : Forall (fun e => isFrontmatterEntry e = true ->
                               lowerString (Toc.title e) = "kata pengantar" \/
                               lowerString (Toc.title e) = "daftar isi")
                (Toc.processTableOfContents pagesText)).
  { apply entries_invariant. intros lines line s e h ri Hp.
    destruct Hp as [m Hm | m Hm Hs | m Hm Hs]; simpl; try discriminate.
    intros _. destruct (special_text line m Hm) as [-> H]. exact H. }
  rewrite Forall_forall in *. intros e He. apply filter_In in He.
  destruct He as [Hin Hf]. exact (H e Hin Hf).
Qed.

(** X20. The label of the k-th front-matter entry of the output (from 0) is
    the k-th roman numeral of the table for k below 10 and the decimal
    string of k + 1 from there on. *)
Theorem frontmatter_labels (pagesText : list string) (k : nat) (e : Toc.Entry) :
  nth_error (filter isFrontmatterEntry (Toc.processTableOfContents pagesText)) k
    = Some e ->
  Toc.pageNumber e = Toc.PStr (Toc.romanPageOf k) /\
  (k < 10 -> nth_error Toc.romanNumerals k = Some (Toc.romanPageOf k)) /\
  (10 <= k -> Toc.romanPageOf k = Js.String_of_nat (k + 1)).
Proof.
  intros H. destruct (romanLabelled_run pagesText) as [_ Hlab].
  split; [exact (proj1 (Hlab k e H))|]. split.
  - intros Hk. do 10 (destruct k as [|k]; [reflexivity|]). lia.
  - intros Hk. unfold Toc.romanPageOf.
    destruct (nth_error Toc.romanNumerals k) eqn:E; [|reflexivity].
    assert (Hlt : k < List.length Toc.romanNumerals)
      by (apply nth_error_Some; rewrite E; discriminate).
    simpl in Hlt. lia.
Qed.

Lemma frontmatter_labels_witness :
  let e := {| Toc.type := Toc.frontmatter; Toc.title := "KATA PENGANTAR";
              Toc.content := "KATA PENGANTAR - Halaman iii";
              Toc.pageNumber := Toc.PStr "iii" |} in
  Toc.pageNumber e = Toc.PStr (Toc.romanPageOf 2) /\
  (2 < 10 -> nth_error Toc.romanNumerals 2 = Some (Toc.romanPageOf 2)) /\
  (10 <= 2 -> Toc.romanPageOf 2 = Js.String_of_nat (2 + 1)).
Proof.
  intros e. apply (frontmatter_labels elevenHeadings 2 e). reflexivity.
Defined.



(** X22. Splitting a page at line feeds undoes the join of [loadPDF]: for a
    document in which every page has at least one text item and no item
    holds a line feed, the lines the extractor scans on each page are the
    text items of that page, in order. *)
Theorem lines_are_items (pdf : Pdf.Document) :
  Forall (fun items => items <> [] /\ Forall noLineFeed items) pdf ->
  map Js.split_lines (Pdf.loadPDF pdf) = pdf.
Proof.
  intros H. unfold Pdf.loadPDF. rewrite map_map.
  apply map_fixed. intros items Hin.
  rewrite Forall_forall in H. destruct (H items Hin) as [Hne Hno].
  apply split_join; assumption.
Qed.

Lemma lines_are_items_witness :
  map Js.split_lines (Pdf.loadPDF [["Kata Pengantar"; "hello"]; ["Bab 1"; "Introduction"]])
  = [["Kata Pengantar"; "hello"]; ["Bab 1"; "Introduction"]].
Proof.
  apply (lines_are_items [["Kata Pengantar"; "hello"]; ["Bab 1"; "Introduction"]]).
  repeat constructor; discriminate.
Defined.

Lemma chapter_label_counts_all_entries_witness :
  let e := {| Toc.type := Toc.chapter; Toc.title := "Next";
              Toc.content := "BAB 4 : Next"; Toc.pageNumber := Toc.PNum 3 |} in
  Toc.content e = "BAB " ++ Js.String_of_nat (3 + 1) ++ " : " ++ Toc.title e.
Proof.
  intros e. apply (chapter_label_counts_all_entries examplePages 3 e); reflexivity.
Defined.

Section Growth.

Import Toc.
Local Open Scope list_scope.

Lemma lineStep_extends lines line st :
  exists more, tableOfContents (lineStep lines st line) = tableOfContents st ++ more.
Proof.
  apply (lineStep_invariant
           (fun s => exists more, tableOfContents s = tableOfContents st ++ more)).
  - intros s e h ri [more H] _ _. exists (more ++ [e]).
    unfold pushed. cbn [tableOfContents]. rewrite H, app_assoc. reflexivity.
  - exists []. rewrite app_nil_r. reflexivity.
Qed.

Lemma lines_extend lines ls : forall st,
  exists more,
    tableOfContents (fold_left (lineStep lines) ls st) = tableOfContents st ++ more.
Proof.
  induction ls as [|line ls IH]; intros st; simpl.
  - exists []. rewrite app_nil_r. reflexivity.
  - destruct (IH (lineStep lines st line)) as [m2 H2].
    destruct (lineStep_extends lines line st) as [m1 H1].
    exists (m1 ++ m2). rewrite H2, H1, app_assoc. reflexivity.
Qed.

Lemma pageStep_extends st text :
  exists more, tableOfContents (pageStep st text) = tableOfContents st ++ more.
Proof.
  unfold pageStep.
  destruct (lines_extend (Js.split_lines text) (Js.split_lines text)
              (startMainContent text st)) as [more H].
  exists more.
  assert (E : forall s, tableOfContents (endPage s) = tableOfContents s).
  { intros s. unfold endPage. destruct (isMainContentStarted s); reflexivity. }
  rewrite E, H. unfold startMainContent.
  destruct (negb (isMainContentStarted st) && testBab1 text); reflexivity.
Qed.

Lemma pages_extend l : forall st,
  exists more, tableOfContents (fold_left pageStep l st) = tableOfContents st ++ more.
Proof.
  induction l as [|text l IH]; intros st; simpl.
  - exists []. rewrite app_nil_r. reflexivity.
  - destruct (IH (pageStep st text)) as [m2 H2].
    destruct (pageStep_extends st text) as [m1 H1].
    exists (m1 ++ m2). rewrite H2, H1, app_assoc. reflexivity.
Qed.

Lemma Forall2_In_l {A B} (R : A -> B -> Prop) l l' a :
  Forall2 R l l' -> In a l -> exists b, In b l' /\ R a b.
Proof.
  induction 1 as [|x y l l' Hxy H IH]; intros Hin; [destruct Hin|].
  destruct Hin as [<- | Hin].
  - exists y. split; [left; reflexivity | exact Hxy].
  - destruct (IH Hin) as (b & Hb & Hab). exists b. split; [right|]; assumption.
Qed.

End Growth.

(** X24. The entries found on the first pages stay as they are when more
    pages follow: the output for a longer document starts with the output
    for its first pages. *)
Theorem output_grows_with_pages (pagesText more : list string) :
  exists entries,
    Toc.processTableOfContents (pagesText ++ more)
    = (Toc.processTableOfContents pagesText ++ entries)%list.
Proof.
  unfold Toc.processTableOfContents, Toc.run. rewrite fold_left_app.
  apply pages_extend.
Qed.

(** X25. [addChapter] makes the list one entry longer, and the entry it
    adds carries the new identifier, a title that is not empty and a line
    spacing that is neither zero nor NaN, whatever the partial holds. *)
Theorem addChapter_adds_entry
    (state : Store.EbookStore) (newId : string) (p : Store.PartialChapter) :
  List.length (Store.chapters (Store.addChapter newId p state))
  = S (List.length (Store.chapters state)) /\
  exists c,
    In c (Store.chapters (Store.addChapter newId p state)) /\
    Store.id c = newId /\
    Js.truthy (Store.title c) = true /\
    Js.truthyNum (Store.lineSpacing c) = true.
Proof.
  unfold Store.addChapter. cbn [Store.chapters].
  set (new := Store.newChapterOf newId p).
  set (ins := Store.splice_insert (Store.chapters state)
                (Store.insertIndexOf new (Store.chapters state)) new).
  split.
  - unfold Store.numberChapters. rewrite numberFrom_length.
    unfold ins, Store.splice_insert. rewrite length_app. cbn [List.length].
    rewrite Nat.add_succ_r, <- length_app, firstn_skipn. reflexivity.
  - assert (Hin : In new ins).
    { unfold ins, Store.splice_insert. apply in_or_app. right. left. reflexivity. }
    destruct (Forall2_In_l _ _ _ _ (numberFrom_renumbered ins 1) Hin)
      as (c & Hc & Hr).
    exists c. split; [exact Hc|].
    assert (Hsame : Store.id c = Store.id new /\ Store.title c = Store.title new /\
                    Store.lineSpacing c = Store.lineSpacing new).
    { unfold renumberedFrom in Hr.
      destruct (Store.isChapter new); [destruct Hr as [n ->] | subst c]; auto. }
    destruct Hsame as (-> & -> & ->). unfold new, Store.newChapterOf.
    cbn [Store.id Store.title Store.lineSpacing].
    split; [reflexivity|].
    split; [destruct (Store.p_title p) as [[|a t]|]; reflexivity|].
    destruct (Store.p_lineSpacing p) as [x|]; [|reflexivity].
    destruct (Js.truthyNum x) eqn:E; [exact E | reflexivity].
Qed.

Section Settings.

Import Store.

(** The estimate reads the paper size, the margins, the paragraph font and
    whether there is a cover image, and nothing else of the settings. *)
Lemma pagination_inputs l s s' :
  paperSize s' = paperSize s ->
  margins s' = margins s ->
  paragraph (fonts s') = paragraph (fonts s) ->
  hasCover s' = hasCover s ->
  chapters (calculatePageNumbers {| chapters := l; settings := s' |})
  = chapters (calculatePageNumbers {| chapters := l; settings := s |}).
Proof.
  intros Hp Hm Hf Hc. unfold calculatePageNumbers. cbn [chapters settings].
  unfold charsPerPageOf, initialCounters. rewrite Hp, Hm, Hf, Hc. reflexivity.
Qed.

End Settings.

(** X26. Settings that the estimate does not read do not move any page
    number: after [updateSettings] with a partial that holds no cover
    image, paper size, margins or fonts (a new title, author, page
    numbering, header or footer, say), [calculatePageNumbers] gives the
    chapter list it gave before.  [updateSettings] itself leaves the
    chapter list, and so the stored page numbers, as they are. *)
Theorem other_settings_keep_pages
    (state : Store.EbookStore) (p : Store.PartialSettings) :
  Store.ps_coverImage p = None ->
  Store.ps_paperSize p = None ->
  Store.ps_margins p = None ->
  Store.ps_fonts p = None ->
  Store.chapters (Store.calculatePageNumbers (Store.updateSettings p state))
  = Store.chapters (Store.calculatePageNumbers state) /\
  Store.chapters (Store.updateSettings p state) = Store.chapters state.
Proof.
  intros Hc Hp Hm Hf. split; [|reflexivity].
  destruct state as [l s]. unfold Store.updateSettings.
  cbn [Store.chapters Store.settings].
  apply pagination_inputs; unfold Store.mergeSettings, Store.hasCover;
    cbn [Store.paperSize Store.margins Store.fonts Store.coverImage];
    rewrite ?Hc, ?Hp, ?Hm, ?Hf; reflexivity.
Qed.

Lemma other_settings_keep_pages_witness :
  let p := Store.mkPartialSettings (Some "Buku") (Some "Penulis") None None None
             None None None
             (Some (Store.mkPageNumbering true 5 "top" "left" "roman"))
             None None in
  Store.chapters (Store.calculatePageNumbers (Store.updateSettings p withSection))
  = Store.chapters (Store.calculatePageNumbers withSection) /\
  Store.chapters (Store.updateSettings p withSection) = Store.chapters withSection.
Proof.
  intros p. apply (other_settings_keep_pages withSection p); reflexivity.
Defined.
